(** * DreamScreen service for Home Assistant

    A shallow embedding of [__init__.py]: the five validation schemas, the
    service table, the service handler registered by [async_setup], the
    entity loop of [async_setup], and the [DreamScreenEntity] adapter.

    Python objects are attribute dictionaries, so a device handle is a
    class tag with a [gmap] from attribute names to values; [setattr] and
    attribute reads go through it, and a read of a missing attribute raises
    [AttributeError].  Code that raises returns [Raise]; the handler threads
    the list of adapters and a trace of its effects. *)

From Stdlib Require Import ZArith Lia Ascii String.
From Stdlib.Strings Require Import Byte.
From stdpp Require Import base option list strings gmap pretty.

Local Open Scope string_scope.
Local Open Scope nat_scope.
Local Open Scope list_scope.

(** ** Python values and exceptions *)

Inductive value :=
| VNone
| VInt (z : Z)
| VStr (s : string)
| VBytes (b : list byte)
| VList (l : list string).

Inductive exn :=
| Invalid          (* voluptuous.Invalid and its subclasses *)
| AttributeError
| TypeError
| ValueError
| ServiceNotFound.

Inductive result (A : Type) :=
| Ok (a : A)
| Raise (e : exn).
Arguments Ok {A} a.
Arguments Raise {A} e.

#[global] Instance result_ret : MRet result := λ A a, Ok a.
#[global] Instance result_bind : MBind result := λ A B f r,
  match r with
  | Ok a => f a
  | Raise e => Raise e
  end.

(** Truth value of an object, as [if obj] and [obj or default] test it. *)
Definition truthy (v : value) : bool :=
  match v with
  | VNone => false
  | VInt z => negb (z =? 0)%Z
  | VStr s => negb (String.eqb s "")
  | VBytes b => negb (Nat.eqb (length b) 0)
  | VList l => negb (Nat.eqb (length l) 0)
  end.

(** [v == k] for an integer literal [k]. *)
Definition py_eq_int (v : value) (k : Z) : bool :=
  match v with
  | VInt z => (z =? k)%Z
  | _ => false
  end.

(** ** Values of a request

    What a service call carries before validation: any value above, or a
    number that is no [int]: a finite float, given as a fraction, or a
    boolean.  No schema of this module lets one of these through as it is,
    so validated data and device attributes hold [value]s. *)
Inductive request_value :=
| Value (v : value)
| Float (num : Z) (den : positive)
| Bool (b : bool).

Coercion Value : value >-> request_value.

(** [int], [float] and [bool] *)
Definition is_number (v : request_value) : bool :=
  match v with
  | Value (VInt _) | Float _ _ | Bool _ => true
  | Value _ => false
  end.

(** ** Strings: [bytes.hex], [str.upper] and the colour pattern *)

Definition hex_digit (n : N) : ascii :=
  ascii_of_N (if (n <? 10)%N then 48 + n else 87 + n).

Definition byte_hex (b : byte) : string :=
  let n := Byte.to_N b in
  String (hex_digit (n / 16)) (String (hex_digit (n mod 16)) "").

(** [bytes.hex()]: two lowercase digits per byte. *)
Definition bytes_hex (b : list byte) : string :=
  foldr (λ x acc, byte_hex x +:+ acc) "" b.

Definition ascii_upper (c : ascii) : ascii :=
  let n := N_of_ascii c in
  if ((97 <=? n) && (n <=? 122))%N then ascii_of_N (n - 32) else c.

(** [str.upper()] on the ASCII range. *)
Fixpoint str_upper (s : string) : string :=
  match s with
  | "" => ""
  | String c r => String (ascii_upper c) (str_upper r)
  end.

(** The character class [[0-9a-fA-F]]. *)
Definition is_hex_digit (c : ascii) : bool :=
  let n := N_of_ascii c in
  (((48 <=? n) && (n <=? 57)) || ((65 <=? n) && (n <=? 70))
   || ((97 <=? n) && (n <=? 102)))%N.

(** [[0-9a-fA-F]{n}] at the head of [s]; the rest of the string. *)
Fixpoint hex_run (n : nat) (s : string) : option string :=
  match n with
  | O => Some s
  | S n' =>
      match s with
      | String c r => if is_hex_digit c then hex_run n' r else None
      | "" => None
      end
  end.

(** [$] of Python's [re]: the end of the string, or just before a newline
    that ends the string. *)
Definition at_dollar (s : string) : bool :=
  match s with
  | "" => true
  | String c "" => Ascii.eqb c "010"%char
  | _ => false
  end.

(** [re.match(r'^#(?:[0-9a-fA-F]{3}){1,2}$', s)]: the group is tried twice
    first, then once. *)
Definition hex_color_match (s : string) : bool :=
  match s with
  | String "#"%char r =>
      match hex_run 3 r with
      | Some r1 =>
          match hex_run 3 r1 with
          | Some r2 => at_dollar r2 || at_dollar r1
          | None => at_dollar r1
          end
      | None => false
      end
  | _ => false
  end.

(** ** The device handle *)

(** The classes of [pydreamscreen] the adapter tells apart with
    [isinstance]: the two HDMI models, and every other device class. *)
Inductive device_class :=
| DreamScreenHD
| DreamScreen4K
| OtherDevice.

(** A handle is an object: its class and its attribute dictionary. *)
Record device_handle := Device {
  class_of : device_class;
  attrs : gmap string value;
}.

(** [isinstance(device, (pydreamscreen.DreamScreenHD, pydreamscreen.DreamScreen4K))] *)
Definition is_hdmi_device (d : device_handle) : bool :=
  match class_of d with
  | DreamScreenHD | DreamScreen4K => true
  | OtherDevice => false
  end.

Definition getattr (d : device_handle) (a : string) : result value :=
  match attrs d !! a with
  | Some v => Ok v
  | None => Raise AttributeError
  end.

Definition hex_val (c : ascii) : N :=
  let n := N_of_ascii c in
  if (n <=? 57)%N then n - 48 else if (n <=? 70)%N then n - 55 else n - 87.

Definition byte_of_hex (hi lo : ascii) : byte :=
  byte_of_ascii (ascii_of_N (16 * hex_val hi + hex_val lo)).

(** Modelled from the spec: the [ambient_color] property setter of the
    device-control library, which the repository imports and does not
    contain.  The spec keeps the attribute as raw bytes ("ambient color
    bytes", "an RGB value") and has a colour string written through the
    service read back as [#RRGGBB]; so the setter keeps the three bytes the
    string denotes, a three-digit form standing for its digits doubled.
    Any other string is refused with a [TypeError]. *)
Definition ambient_color_bytes (s : string) : option (list byte) :=
  match s with
  | String "#"%char r =>
      let ds := list_ascii_of_string r in
      if forallb is_hex_digit ds then
        match ds with
        | [r1; g1; b1] =>
            Some [byte_of_hex r1 r1; byte_of_hex g1 g1; byte_of_hex b1 b1]
        | [r1; r2; g1; g2; b1; b2] =>
            Some [byte_of_hex r1 r2; byte_of_hex g1 g2; byte_of_hex b1 b2]
        | _ => None
        end
      else None
  | _ => None
  end.

(** The properties of the handle whose setter takes an [int] and refuses
    anything else, [None] included, with a [TypeError]. *)
Definition INT_PROPERTIES : list string :=
  ["mode"; "hdmi_input"; "brightness"; "ambient_scene"].

(** What an attribute holds after [setattr(device, a, v)].
    [ambient_color] goes through the library's setter above; the integer
    properties keep an integer as given (the bounds their setters check
    are those of the schemas, and are not repeated here); a plain
    attribute holds [v]. *)
Definition stored_value (a : string) (v : value) : result value :=
  if String.eqb a "ambient_color" then
    match v with
    | VStr s =>
        match ambient_color_bytes s with
        | Some b => Ok (VBytes b)
        | None => Raise TypeError
        end
    | VBytes b => Ok (VBytes b)
    | _ => Raise TypeError
    end
  else if bool_decide (a ∈ INT_PROPERTIES) then
    match v with
    | VInt z => Ok (VInt z)
    | _ => Raise TypeError
    end
  else Ok v.

Definition setattr (d : device_handle) (a : string) (v : value)
  : result device_handle :=
  v' ← stored_value a v;
  Ok (Device (class_of d) (<[a := v']> (attrs d))).

(** ** The adapter: [class DreamScreenEntity(Entity)] *)

Record DreamScreenEntity := Entity {
  device : device_handle;
  entity_id : string;
  _name : value;
}.

Definition with_device (self : DreamScreenEntity) (d : device_handle)
  : DreamScreenEntity :=
  Entity d (entity_id self) (_name self).

(** [name]: [return self._name] *)
Definition name (self : DreamScreenEntity) : value := _name self.

(** [state]: ["on" if self.device.mode else 'off'] *)
Definition state (self : DreamScreenEntity) : result string :=
  mode ← getattr (device self) "mode";
  Ok (if truthy mode then "on" else "off").

(** [assumed_state]: [return 'off'] *)
Definition assumed_state (self : DreamScreenEntity) : string := "off".

(** [v.hex()]: only [bytes] has the method among the values modelled. *)
Definition hex_method (v : value) : result string :=
  match v with
  | VBytes b => Ok (bytes_hex b)
  | _ => Raise AttributeError
  end.

Definition state_attributes (self : DreamScreenEntity)
  : result (gmap string value) :=
  let d := device self in
  group_name ← getattr d "group_name";
  group_number ← getattr d "group_number";
  mode ← getattr d "mode";
  brightness ← getattr d "brightness";
  color ← getattr d "ambient_color";
  hex ← hex_method color;
  scene ← getattr d "ambient_scene";
  let attrs : gmap string value :=
    <["ambient_scene" := scene]>
      (<["ambient_color" := VStr ("#" +:+ str_upper hex)]>
        (<["brightness" := brightness]>
          (<["device_mode" := mode]>
            (<["group_number" := group_number]>
              (<["group_name" := group_name]> ∅))))) in
  if is_hdmi_device d then
    hdmi_input ← getattr d "hdmi_input";
    selected_hdmi ←
      (if py_eq_int hdmi_input 0 then getattr d "hdmi_input_1_name"
       else if py_eq_int hdmi_input 1 then getattr d "hdmi_input_2_name"
       else if py_eq_int hdmi_input 2 then getattr d "hdmi_input_3_name"
       else Ok VNone);
    name1 ← getattr d "hdmi_input_1_name";
    name2 ← getattr d "hdmi_input_2_name";
    name3 ← getattr d "hdmi_input_3_name";
    channels ← getattr d "hdmi_active_channels";
    Ok (<["hdmi_active_channels" := channels]>
         (<["hdmi_input_3_name" := name3]>
           (<["hdmi_input_2_name" := name2]>
             (<["hdmi_input_1_name" := name1]>
               (<["hdmi_input" := hdmi_input]>
                 (<["selected_hdmi" := selected_hdmi]> attrs))))))
  else Ok attrs.

(** ** What the host platform and the libraries provide

    The functions the module calls and does not define.  Each is a
    parameter; of [cv.entity_ids] two facts are kept, which decide how a
    request is refused: [None] is a validation error, and a number, which
    cannot be iterated, is a [TypeError]. *)
Class Platform := {
  (* [slugify(name.lower())] of [homeassistant.util] *)
  slugify : string → string;
  (* the builtin [int(v)] on an argument that is not a number (a string,
     bytes, [None], a list); [None] when it raises [ValueError] or
     [TypeError] *)
  py_int : value → option Z;
  (* [cv.entity_ids]: the list of identifiers, or the exception it raises:
     [vol.Invalid], or another one on a value it cannot iterate *)
  cv_entity_ids : request_value → result (list string);
  (* [None] is refused by name; a number cannot be iterated, which is a
     [TypeError] that [cv.entity_ids] does not catch *)
  cv_entity_ids_None : cv_entity_ids (Value VNone) = Raise Invalid;
  cv_entity_ids_number :
    ∀ v, is_number v = true → cv_entity_ids v = Raise TypeError;
  (* [device.update_current_state()]: the handle after it has synchronised
     with the physical device *)
  update_current_state : device_handle → device_handle;
}.

Definition DOMAIN : string := "dreamscreen".

(** [ENTITY_ID_FORMAT.format(x)], with [ENTITY_ID_FORMAT = DOMAIN + '.{}'] *)
Definition ENTITY_ID_FORMAT (x : string) : string := DOMAIN +:+ "." +:+ x.

Definition DEVICE_DEFAULT_NAME : string := "Unnamed Device".

(** Modelled from the spec: the generation of identifiers is the host
    platform's ([generate_entity_id], imported and not part of the
    repository).  The spec: "a fixed domain prefix joined with a normalized
    form of the device's name, disambiguated against the supplied set",
    "collision-avoided by suffixing".  The suffixing is the platform's
    [ensure_unique_string]:
<<
    test_string = preferred_string
    tries = 1
    while test_string in current_strings_set:
        tries += 1
        test_string = "{}_{}".format(preferred_string, tries)
    return test_string
>>
    The loop is cut after [fuel] rounds. *)
Fixpoint ensure_unique_loop (fuel : nat) (preferred_string : string)
    (current_strings : list string) (tries : nat) (test_string : string)
  : option string :=
  if bool_decide (test_string ∈ current_strings) then
    match fuel with
    | O => None
    | S fuel' =>
        ensure_unique_loop fuel' preferred_string current_strings (S tries)
          (preferred_string +:+ "_" +:+ pretty (S tries))
    end
  else Some test_string.

(** One round per string already taken is always enough, see
    [ensure_unique_string_total]. *)
Definition ensure_unique_string (preferred_string : string)
    (current_strings : list string) : option string :=
  ensure_unique_loop (length current_strings) preferred_string
    current_strings 1 preferred_string.

Section WithPlatform.
Context `{Platform}.

(** Modelled from the spec: [generate_entity_id], see above; in the
    platform it is [name = (name or DEVICE_DEFAULT_NAME).lower()], then
    [ensure_unique_string(entity_id_format.format(slugify(name)), current_ids)].
    A name that is neither empty nor a string has no [lower]. *)
Definition generate_entity_id (entity_id_format : string → string)
    (name : value) (current_ids : list string) : result string :=
  name' ← (if truthy name then
             match name with
             | VStr s => Ok s
             | _ => Raise AttributeError
             end
           else Ok DEVICE_DEFAULT_NAME);
  match ensure_unique_string (entity_id_format (slugify name')) current_ids with
  | Some s => Ok s
  | None => Raise ValueError
  end.

(** [DreamScreenEntity.__init__(self, device, current_ids)] *)
Definition __init__ (device : device_handle) (current_ids : list string)
  : result DreamScreenEntity :=
  name ← getattr device "name";
  entity_id ← generate_entity_id ENTITY_ID_FORMAT name current_ids;
  _name ← getattr device "name";
  Ok (Entity device entity_id _name).

(** The entity loop of [async_setup]:
<<
    for device in pydreamscreen.get_devices():
        entity = DreamScreenEntity(device=device, current_ids=entity_ids)
        entity_ids.append(entity.entity_id)
        entities.append(entity)
>> *)
Fixpoint setup_loop (devices : list device_handle)
    (entities : list DreamScreenEntity) (entity_ids : list string)
  : result (list DreamScreenEntity) :=
  match devices with
  | [] => Ok entities
  | device :: rest =>
      entity ← __init__ device entity_ids;
      setup_loop rest (entities ++ [entity]) (entity_ids ++ [entity_id entity])
  end.

(** [async_setup], the adapters: [devices] is what
    [pydreamscreen.get_devices()] returns, the result is the list handed to
    [component.async_add_entities]. *)
Definition async_setup (devices : list device_handle)
  : result (list DreamScreenEntity) :=
  setup_loop devices [] [].

(** [DreamScreenEntity.update]: [self.device.update_current_state()] *)
Definition update (self : DreamScreenEntity) : DreamScreenEntity :=
  with_device self (update_current_state (device self)).

End WithPlatform.

(** ** Validation: the [voluptuous] schemas *)

(** The validators the five schemas are made of.  [IntRange min max] is
    [vol.All(vol.Coerce(int), vol.Range(min=min, max=max))], the one form
    the four integer rules have: [Coerce] first, then [Range] on the
    integer it returns. *)
Inductive validator :=
| IntRange (min max : Z)
    (* vol.All(vol.Coerce(int), vol.Range(min=.., max=..)) *)
| Match (pattern : string → bool)    (* vol.Match(..) *)
| entity_ids.                        (* cv.entity_ids *)

(** A schema over a dictionary; every key is [vol.Required]. *)
Definition Schema := list (string * validator).

Definition ATTR_ENTITY_ID : string := "entity_id".
Definition CONF_MODE : string := "mode".
Definition CONF_BRIGHTNESS : string := "brightness".

Definition SERVICE_MODE : string := "set_mode".
Definition SERVICE_MODE_SCHEMA : Schema :=
  [(ATTR_ENTITY_ID, entity_ids);
   (CONF_MODE, IntRange 0 3)].

Definition SERVICE_HDMI_SOURCE : string := "set_hdmi_source".
Definition CONF_HDMI_SOURCE : string := "source".
Definition SERVICE_HDMI_SOURCE_SCHEMA : Schema :=
  [(ATTR_ENTITY_ID, entity_ids);
   (CONF_HDMI_SOURCE, IntRange 0 2)].

Definition SERVICE_BRIGHTNESS : string := "set_brightness".
Definition SERVICE_BRIGHTNESS_SCHEMA : Schema :=
  [(ATTR_ENTITY_ID, entity_ids);
   (CONF_BRIGHTNESS, IntRange 0 100)].

Definition SERVICE_AMBIENT_SCENE : string := "set_ambient_scene".
Definition CONF_AMBIENT_SCENE : string := "scene".
Definition SERVICE_AMBIENT_SCENE_SCHEMA : Schema :=
  [(ATTR_ENTITY_ID, entity_ids);
   (CONF_AMBIENT_SCENE, IntRange 0 8)].

Definition SERVICE_AMBIENT_COLOR : string := "set_ambient_color".
Definition CONF_AMBIENT_COLOR : string := "color".
Definition SERVICE_AMBIENT_COLOR_SCHEMA : Schema :=
  [(ATTR_ENTITY_ID, entity_ids);
   (CONF_AMBIENT_COLOR, Match hex_color_match)].

Record service_definition := ServiceDefinition {
  attribute : string;
  schema : Schema;
  param : string;
}.

Definition SERVICE_TO_ATTRIBUTE : list (string * service_definition) :=
  [(SERVICE_MODE,
     ServiceDefinition "mode" SERVICE_MODE_SCHEMA CONF_MODE);
   (SERVICE_HDMI_SOURCE,
     ServiceDefinition "hdmi_input" SERVICE_HDMI_SOURCE_SCHEMA CONF_HDMI_SOURCE);
   (SERVICE_BRIGHTNESS,
     ServiceDefinition "brightness" SERVICE_BRIGHTNESS_SCHEMA CONF_BRIGHTNESS);
   (SERVICE_AMBIENT_SCENE,
     ServiceDefinition "ambient_scene" SERVICE_AMBIENT_SCENE_SCHEMA CONF_AMBIENT_SCENE);
   (SERVICE_AMBIENT_COLOR,
     ServiceDefinition "ambient_color" SERVICE_AMBIENT_COLOR_SCHEMA CONF_AMBIENT_COLOR)].

(** [d.get(k)] on a dictionary kept in insertion order. *)
Fixpoint dict_get {A : Type} (k : string) (d : list (string * A)) : option A :=
  match d with
  | [] => None
  | (k', a) :: r => if String.eqb k k' then Some a else dict_get k r
  end.

(** ** Service calls, the adapters and the effects of a call *)

(** A call carries the name of the service and its data: the values of the
    request when the platform receives it ([ServiceRequest]), the validated
    values when the handler is given it ([ServiceCall]). *)
Record ServiceCallOf (A : Type) := Call {
  service : string;
  data : gmap string A;
}.
Arguments Call {A} service data.
Arguments service {A} _.
Arguments data {A} _.

Abbreviation ServiceCall := (ServiceCallOf value).
Abbreviation ServiceRequest := (ServiceCallOf request_value).

(** The effects of the handler: [setattr(entity.device, attribute, v)] and
    the refresh started by [entity.async_update_ha_state(True)], each on the
    adapter at a position of the component's entity list. *)
Inductive event :=
| Setattr (i : nat) (attribute : string) (v : value)
| UpdateState (i : nat).

Record world := World {
  entities : list DreamScreenEntity;
  trace : list event;
}.

(** Positions of the entities [p] holds for, from position [i] on. *)
Fixpoint positions (p : DreamScreenEntity → bool)
    (es : list DreamScreenEntity) (i : nat) : list nat :=
  match es with
  | [] => []
  | e :: r => if p e then i :: positions p r (S i) else positions p r (S i)
  end.

(** Modelled from the spec: [component.async_extract_from_service(service)]
    of the host platform.  The spec: "target entity identifiers are resolved
    to the corresponding in-memory adapters via the platform's entity
    registry; an identifier with no matching registered adapter is silently
    skipped".  In the platform a call that names no entity stands for all of
    them.  The result is the list of positions of the adapters in the
    component's entity list. *)
Definition async_extract_from_service (es : list DreamScreenEntity)
    (data : gmap string value) : list nat :=
  match data !! ATTR_ENTITY_ID with
  | None => positions (λ _, true) es 0
  | Some v =>
      let ids := match v with
                 | VList l => l
                 | VStr s => [s]
                 | _ => []
                 end in
      positions (λ e, bool_decide (entity_id e ∈ ids)) es 0
  end.

(** The loop of the handler over [target_entities]:
<<
    for entity in target_entities:
        setattr(entity.device, attribute, attribute_value)
        updates.append(entity.async_update_ha_state(True))
>>
    An exception of the setter leaves the loop with the writes done so
    far. *)
Fixpoint write_targets (attribute : string) (attribute_value : value)
    (target_entities : list nat) (w : world) (updates : list nat)
  : world * result (list nat) :=
  match target_entities with
  | [] => (w, Ok updates)
  | i :: rest =>
      match entities w !! i with
      | None => write_targets attribute attribute_value rest w updates
      | Some entity =>
          match setattr (device entity) attribute attribute_value with
          | Raise e => (w, Raise e)
          | Ok d =>
              write_targets attribute attribute_value rest
                (World (<[i := with_device entity d]> (entities w))
                       (trace w ++ [Setattr i attribute attribute_value]))
                (updates ++ [i])
          end
      end
  end.

Section Services.
Context `{Platform}.

(** [int(v)] as [vol.Coerce(int)] calls it; [None] when it raises
    [ValueError] or [TypeError], which [Coerce] turns into [vol.Invalid].
    A float is truncated toward zero, [True] is 1 and [False] is 0. *)
Definition as_int (v : request_value) : option Z :=
  match v with
  | Value (VInt z) => Some z
  | Value v' => py_int v'
  | Float num den => Some (Z.quot num (Z.pos den))
  | Bool b => Some (if b then 1 else 0)%Z
  end.

(** What a schema makes of an exception of a validator that is a plain
    function: a [ValueError] is reported as [vol.Invalid], every other
    exception goes through. *)
Definition callable_error (e : exn) : exn :=
  match e with
  | ValueError => Invalid
  | _ => e
  end.

(** One validator on one value.  [vol.Range] sees the integer [Coerce]
    returned; [vol.Match] refuses what is no string; [cv.entity_ids] is a
    plain function. *)
Definition validate (f : validator) (v : request_value) : result value :=
  match f with
  | IntRange min max =>
      match as_int v with
      | Some z =>
          if ((min <=? z) && (z <=? max))%Z then Ok (VInt z) else Raise Invalid
      | None => Raise Invalid
      end
  | Match pattern =>
      match v with
      | Value (VStr s) => if pattern s then Ok (VStr s) else Raise Invalid
      | _ => Raise Invalid
      end
  | entity_ids =>
      match cv_entity_ids v with
      | Ok l => Ok (VList l)
      | Raise e => Raise (callable_error e)
      end
  end.

(** The keys of the schema, in its order: a required key must be there,
    and each value is replaced by its validated form.  An exception of a
    validator that is no [vol.Invalid] ends the validation at once. *)
Fixpoint validate_keys (sch : Schema) (data : gmap string request_value)
  : result (gmap string value) :=
  match sch with
  | [] => Ok ∅
  | (k, f) :: r =>
      match data !! k with
      | None => Raise Invalid
      | Some v =>
          v' ← validate f v;
          out ← validate_keys r data;
          Ok (<[k := v']> out)
      end
  end.

(** [schema(data)]: the values of the schema's keys are validated as the
    dictionary is walked, and a key the schema does not name is an error
    reported at the end: [vol.Invalid], unless a validator has raised
    another exception before. *)
Definition schema_validate (sch : Schema) (data : gmap string request_value)
  : result (gmap string value) :=
  out ← validate_keys sch data;
  if forallb (λ k, bool_decide (k ∈ sch.*1)) (map_to_list data).*1
  then Ok out
  else Raise Invalid.

(** The refreshes awaited by [asyncio.wait(updates, loop=hass.loop)]; each
    runs the entity's [update].  They touch different adapters, and are
    taken in the order of the list. *)
Definition wait (updates : list nat) (w : world) : world :=
  foldl (λ w i, World (alter update i (entities w)) (trace w ++ [UpdateState i]))
        w updates.

(** [async_handle_dreamscreen_services(service)] *)
Definition async_handle_dreamscreen_services (w : world) (call : ServiceCall)
  : world * result unit :=
  match dict_get (service call) SERVICE_TO_ATTRIBUTE with
  | None => (w, Raise TypeError)
  | Some service_definition =>
      let attribute := attribute service_definition in
      let attribute_value :=
        default VNone (data call !! param service_definition) in
      let target_entities :=
        async_extract_from_service (entities w) (data call) in
      match write_targets attribute attribute_value target_entities w [] with
      | (w', Raise e) => (w', Raise e)
      | (w', Ok updates) =>
          match updates with
          | [] => (w', Ok ())
          | _ => (wait updates w', Ok ())
          end
      end
  end.

(** The services registered by [async_setup]:
<<
    for service_name in SERVICE_TO_ATTRIBUTE:
        schema = SERVICE_TO_ATTRIBUTE[service_name].get('schema')
        hass.services.async_register(DOMAIN, service_name,
                                     async_handle_dreamscreen_services,
                                     schema=schema)
>> *)
Definition registered_services : list (string * Schema) :=
  map (λ '(service_name, d), (service_name, schema d)) SERVICE_TO_ATTRIBUTE.

(** Modelled from the spec: the call of a registered service by the host
    platform, which is not part of the repository.  The spec: "A request
    failing validation is rejected before any device is touched (fails with
    ValidationError)".  The platform applies the schema the service was
    registered with and hands the validated data to the handler; whatever
    the schema raises reaches the caller, and the handler is not run. *)
Definition call_service (w : world) (call : ServiceRequest)
  : world * result unit :=
  match dict_get (service call) registered_services with
  | None => (w, Raise ServiceNotFound)
  | Some schema =>
      match schema_validate schema (data call) with
      | Raise e => (w, Raise e)
      | Ok data' => async_handle_dreamscreen_services w (Call (service call) data')
      end
  end.

End Services.

(** ** Concrete inputs *)

(** A platform to run the definitions on: identifiers are kept as they
    are, [int] takes nothing but numbers, [cv.entity_ids] takes a list or
    one identifier, and a refresh finds the device as the handle has it. *)
Definition sample_entity_ids (v : request_value) : result (list string) :=
  match v with
  | Value (VList l) => Ok l
  | Value (VStr s) => Ok [s]
  | Value (VInt _) | Float _ _ | Bool _ => Raise TypeError
  | Value _ => Raise Invalid
  end.

Lemma sample_entity_ids_number v :
  is_number v = true → sample_entity_ids v = Raise TypeError.
Proof. by destruct v as [[] | |]. Qed.

Definition sample_platform : Platform := {|
  slugify := λ s, s;
  py_int := λ _, None;
  cv_entity_ids := sample_entity_ids;
  cv_entity_ids_None := eq_refl;
  cv_entity_ids_number := sample_entity_ids_number;
  update_current_state := λ d, d;
|}.

Definition sample_attrs (name : string) : gmap string value :=
  <["name" := VStr name]>
    (<["group_name" := VStr "Living Room"]>
      (<["group_number" := VInt 1]>
        (<["mode" := VInt 1]>
          (<["brightness" := VInt 80]>
            (<["ambient_color" := VBytes [xff; x00; x7f]]>
              (<["ambient_scene" := VInt 2]> ∅)))))).

Definition sample_hdmi_attrs (name : string) (hdmi_input : Z)
  : gmap string value :=
  <["hdmi_input" := VInt hdmi_input]>
    (<["hdmi_input_1_name" := VStr "TV"]>
      (<["hdmi_input_2_name" := VStr "Console"]>
        (<["hdmi_input_3_name" := VStr "Player"]>
          (<["hdmi_active_channels" := VInt 3]> (sample_attrs name))))).

Definition sample_sidekick (name : string) : device_handle :=
  Device OtherDevice (sample_attrs name).

Definition sample_hd (name : string) (hdmi_input : Z) : device_handle :=
  Device DreamScreenHD (sample_hdmi_attrs name hdmi_input).

Definition sample_world : world :=
  World [Entity (sample_sidekick "Den") "dreamscreen.den" (VStr "Den");
         Entity (sample_hd "Loft" 0) "dreamscreen.loft" (VStr "Loft")] [].

Definition renamed (d : device_handle) (n : string) : device_handle :=
  Device (class_of d) (<["name" := VStr n]> (attrs d)).

(** ** Notions used in the statements *)

(** The adapter after [setattr(entity.device, a, _)] has stored [v']. *)
Definition written (a : string) (v' : value) (e : DreamScreenEntity)
  : DreamScreenEntity :=
  with_device e (Device (class_of (device e)) (<[a := v']> (attrs (device e)))).

(** One key of the snapshot: [self.state_attributes.get(k)]. *)
Definition snapshot_get (self : DreamScreenEntity) (k : string)
  : result (option value) :=
  a ← state_attributes self; Ok (a !! k).

Definition is_Ok {A : Type} (r : result A) : bool :=
  match r with
  | Ok _ => true
  | Raise _ => false
  end.

Definition HDMI_KEYS : list string :=
  ["hdmi_input"; "selected_hdmi"; "hdmi_input_1_name"; "hdmi_input_2_name";
   "hdmi_input_3_name"; "hdmi_active_channels"].

(** The name [selected_hdmi] resolves to: the branches of
    [if self.device.hdmi_input == 0: .. elif .. == 1: .. elif .. == 2: ..]
    over the three names of the snapshot. *)
Definition selected_name (hdmi_input name1 name2 name3 : value) : value :=
  if py_eq_int hdmi_input 0 then name1
  else if py_eq_int hdmi_input 1 then name2
  else if py_eq_int hdmi_input 2 then name3
  else VNone.

(** The string [ensure_unique_string] tests in round [tries]. *)
Definition candidate (preferred_string : string) (tries : nat) : string :=
  if Nat.eqb tries 1 then preferred_string
  else preferred_string +:+ "_" +:+ pretty tries.

(** The parameter rules as the schemas read them: an integer in a range
    ([int_in]) after [vol.Coerce(int)] has read the value, or a string
    matching the colour pattern in Python's sense. *)
Definition int_in `{Platform} (lo hi : Z) (v : request_value) : bool :=
  match as_int v with
  | Some z => ((lo <=? z) && (z <=? hi))%Z
  | None => false
  end.

Definition spec_parameter_valid `{Platform} (service : string)
    (v : request_value) : bool :=
  if String.eqb service "set_mode" then int_in 0 3 v
  else if String.eqb service "set_hdmi_source" then int_in 0 2 v
  else if String.eqb service "set_brightness" then int_in 0 100 v
  else if String.eqb service "set_ambient_scene" then int_in 0 8 v
  else if String.eqb service "set_ambient_color" then
    match v with
    | Value (VStr s) => hex_color_match s
    | _ => false
    end
  else false.



Definition newline : string := String "010"%char "".

(** The colour strings of the spec: [#] and three or six hex digits. *)
Definition spec_is_hex_color (s : string) : bool :=
  match s with
  | String "#"%char r =>
      let ds := list_ascii_of_string r in
      forallb is_hex_digit ds && (Nat.eqb (length ds) 3 || Nat.eqb (length ds) 6)
  | _ => false
  end.



(** The spec's normal form of a colour string: uppercase [#RRGGBB], the
    digits of a three-digit form doubled. *)
Definition spec_normalized_color (s : string) : string :=
  match s with
  | String h r =>
      match list_ascii_of_string r with
      | [r1; g1; b1] =>
          String h (str_upper (string_of_list_ascii [r1; r1; g1; g1; b1; b1]))
      | _ => String h (str_upper r)
      end
  | "" => ""
  end.

Definition all_ascii : list ascii := ascii_of_nat <$> seq 0 256.

(** [bytes.hex().upper()] gives back the two digits a byte was read from,
    in upper case: checked on all pairs of characters. *)
Definition hex_pair_ok (c1 c2 : ascii) : bool :=
  implb (is_hex_digit c1 && is_hex_digit c2)
        (String.eqb (str_upper (byte_hex (byte_of_hex c1 c2)))
                    (String (ascii_upper c1) (String (ascii_upper c2) ""))).

(** The keys of a snapshot and the attributes it reads. *)
Definition BASE_KEYS : list string :=
  ["group_name"; "group_number"; "device_mode"; "brightness"; "ambient_color";
   "ambient_scene"].

Definition BASE_ATTRIBUTES : list string :=
  ["group_name"; "group_number"; "mode"; "brightness"; "ambient_color";
   "ambient_scene"].

Definition HDMI_ATTRIBUTES : list string :=
  ["hdmi_input"; "hdmi_input_1_name"; "hdmi_input_2_name";
   "hdmi_input_3_name"; "hdmi_active_channels"].

Definition has_attrs (d : device_handle) (ks : list string) : Prop :=
  ∀ k, k ∈ ks → is_Some (attrs d !! k).

(** The snapshot key a device attribute is shown under. *)
Definition snapshot_key (a : string) : string :=
  if String.eqb a "mode" then "device_mode" else a.

(** The attribute holding the name of HDMI input [k] (counted from 0). *)
Definition hdmi_name_attribute (k : Z) : string :=
  if (k =? 0)%Z then "hdmi_input_1_name"
  else if (k =? 1)%Z then "hdmi_input_2_name"
  else "hdmi_input_3_name".

(** A second platform to run on, whose [int] also reads a string of decimal
    digits. *)
Fixpoint digits_value (s : string) (acc : Z) : option Z :=
  match s with
  | "" => Some acc
  | String c r =>
      let n := N_of_ascii c in
      if ((48 <=? n) && (n <=? 57))%N
      then digits_value r (10 * acc + Z.of_N (n - 48))
      else None
  end.

Definition sample_platform_parsing : Platform := {|
  slugify := λ s, s;
  py_int := λ v, match v with
                  | VStr (String c r) => digits_value (String c r) 0
                  | _ => None
                  end;
  cv_entity_ids := sample_entity_ids;
  cv_entity_ids_None := eq_refl;
  cv_entity_ids_number := sample_entity_ids_number;
  update_current_state := λ d, d;
|}.

Definition sample_devices : list device_handle :=
  [sample_sidekick "Den"; sample_hd "Den" 0; sample_sidekick "Den"].

(** * Properties *)

Example hex_color_match_ex1 : hex_color_match "#fA0" = true.
Proof. reflexivity. Qed.
Example hex_color_match_ex2 : hex_color_match "#12abEF" = true.
Proof. reflexivity. Qed.
Example hex_color_match_ex3 : hex_color_match "#12ab" = false.
Proof. reflexivity. Qed.
Example hex_color_match_ex4 : hex_color_match "12abEF" = false.
Proof. reflexivity. Qed.
Example bytes_hex_ex : str_upper (bytes_hex [xff; x0a; x10]) = "FF0A10".
Proof. reflexivity. Qed.

Lemma bind_Ok {A B : Type} (f : A → result B) (r : result A) (b : B) :
  r ≫= f = Ok b → ∃ a, r = Ok a ∧ f a = Ok b.
Proof. destruct r as [a|e]; simpl; [eauto | discriminate]. Qed.

Lemma getattr_Ok d a v : getattr d a = Ok v ↔ attrs d !! a = Some v.
Proof.
  unfold getattr. destruct (attrs d !! a); split; intros E;
    by (inversion E || discriminate).
Qed.

(** C9: [assumed_state] is the constant ['off']: it reads nothing of the
    adapter or its device, so it is ['off'] in every state of the handle,
    also when the mode is non-zero and [state] is ["on"]. *)
Theorem C9_assumed_state_always_off :
  ∀ self : DreamScreenEntity,
    assumed_state self = "off" ∧
    ∀ d, assumed_state (with_device self d) = "off".
Proof. intros self. split; [reflexivity | intros d; reflexivity]. Qed.

Example assumed_state_while_on :
  let self := Entity (sample_hd "Den" 0) "dreamscreen.den" (VStr "Den") in
  state self = Ok "on" ∧ assumed_state self = "off".
Proof. split; reflexivity. Qed.

(** *** The adapter's name *)

Section NameProperties.
Context `{Platform}.

Lemma init_Ok d ids self :
  __init__ d ids = Ok self →
  ∃ n, attrs d !! "name" = Some n ∧ device self = d ∧ _name self = n ∧
       generate_entity_id ENTITY_ID_FORMAT n ids = Ok (entity_id self).
Proof.
  unfold __init__. intros E.
  apply bind_Ok in E as (n & Hn & E).
  apply bind_Ok in E as (eid & He & E).
  apply bind_Ok in E as (n' & Hn' & E).
  rewrite Hn in Hn'. inversion Hn'; subst n'.
  inversion E; subst self; simpl.
  apply getattr_Ok in Hn. eauto.
Qed.

(** C3 (as amended): the adapter's name is the display name the handle
    had when the adapter was constructed; [__init__] copies it into
    [_name], and [name] returns that copy whatever the handle's state is
    at the moment of the read. *)
Theorem C3_name_is_name_at_construction :
  ∀ d ids self,
    __init__ d ids = Ok self →
    getattr d "name" = Ok (name self) ∧
    ∀ d', name (with_device self d') = name self.
Proof.
  intros d ids self E. apply init_Ok in E as (n & Hn & Hd & Hname & _).
  split; [| reflexivity].
  unfold name. rewrite Hname. by apply getattr_Ok.
Qed.

End NameProperties.

Lemma C3_name_is_name_at_construction_witness :
  ∃ self,
    @__init__ sample_platform (sample_sidekick "Den") [] = Ok self ∧
    name (with_device self (renamed (sample_sidekick "Den") "Attic"))
      = VStr "Den".
Proof.
  eexists. split; [reflexivity |].
  exact (proj2 (@C3_name_is_name_at_construction sample_platform
                  (sample_sidekick "Den") [] _ eq_refl)
               (renamed (sample_sidekick "Den") "Attic")).
Defined.

(** C3 as stated fails: after the handle's name has changed, [name] still
    returns the old one. *)
Lemma C3_name_read_through_counterexample :
  ¬ (∀ (P : Platform) d ids self d' v,
       @__init__ P d ids = Ok self →
       getattr d' "name" = Ok v →
       name (with_device self d') = v).
Proof.
  intros Hclaim.
  pose (d := sample_sidekick "Den").
  specialize (Hclaim sample_platform d []
                (Entity d "dreamscreen.Den" (VStr "Den"))
                (renamed d "Attic") (VStr "Attic") eq_refl eq_refl).
  discriminate Hclaim.
Qed.

(** *** The attributes snapshot *)

Lemma snapshot_get_Ok self a k :
  state_attributes self = Ok a → snapshot_get self k = Ok (a !! k).
Proof. intros E. unfold snapshot_get. by rewrite E. Qed.

Lemma is_Ok_true {A : Type} (r : result A) : is_Ok r = true → ∃ a, r = Ok a.
Proof. destruct r; [eauto | discriminate]. Qed.

Ltac inv_state_attributes E :=
  unfold state_attributes in E;
  repeat (let x := fresh "v" in let Hx := fresh "Hv" in
          apply bind_Ok in E as (x & Hx & E));
  simpl in E.

(** C6: the snapshot of a handle that is of neither HDMI class has none of
    the six HDMI keys, whatever attributes the handle carries (an
    [hdmi_input] attribute written by [set_hdmi_source] included). *)
Theorem C6_no_hdmi_keys_without_hdmi_class :
  ∀ (self : DreamScreenEntity) (a : gmap string value),
    is_hdmi_device (device self) = false →
    state_attributes self = Ok a →
    ∀ k, k ∈ HDMI_KEYS → a !! k = None.
Proof.
  intros self a Hcls E k Hk.
  inv_state_attributes E. rewrite Hcls in E. inversion E; subst a; clear E.
  unfold HDMI_KEYS in Hk.
  repeat (apply elem_of_cons in Hk as [-> | Hk]; [by simplify_map_eq |]).
  by apply elem_of_nil in Hk.
Qed.

Lemma C6_no_hdmi_keys_without_hdmi_class_witness :
  ∃ a,
    state_attributes
      (Entity (Device OtherDevice (<["hdmi_input" := VInt 1]> (sample_attrs "Den")))
              "dreamscreen.den" (VStr "Den")) = Ok a ∧
    a !! "hdmi_input" = None ∧ a !! "selected_hdmi" = None.
Proof.
  set (self := Entity _ _ _).
  destruct (is_Ok_true (state_attributes self)) as [a E];
    [vm_compute; reflexivity |].
  exists a. split; [exact E |].
  split; apply (C6_no_hdmi_keys_without_hdmi_class self a eq_refl E);
    unfold HDMI_KEYS; set_solver.
Defined.

(** C4 (as amended): in the snapshot of a handle of an HDMI class the key
    [selected_hdmi] is always there.  With [hdmi_input] 0, 1 or 2 it holds
    the name of input 1, 2 or 3; with any other [hdmi_input] it holds
    [None]. *)
Theorem C4_selected_hdmi_always_present :
  ∀ (self : DreamScreenEntity) (a : gmap string value),
    is_hdmi_device (device self) = true →
    state_attributes self = Ok a →
    ∃ hdmi_input name1 name2 name3,
      a !! "hdmi_input" = Some hdmi_input ∧
      a !! "hdmi_input_1_name" = Some name1 ∧
      a !! "hdmi_input_2_name" = Some name2 ∧
      a !! "hdmi_input_3_name" = Some name3 ∧
      a !! "selected_hdmi"
        = Some (selected_name hdmi_input name1 name2 name3) ∧
      (∀ z, hdmi_input = VInt z → (z < 0 ∨ 2 < z)%Z →
            a !! "selected_hdmi" = Some VNone).
Proof.
  intros self a Hcls E.
  inv_state_attributes E. rewrite Hcls in E.
  apply bind_Ok in E as (h & Hh & E).
  apply bind_Ok in E as (sel & Hsel & E).
  apply bind_Ok in E as (n1 & Hn1 & E).
  apply bind_Ok in E as (n2 & Hn2 & E).
  apply bind_Ok in E as (n3 & Hn3 & E).
  apply bind_Ok in E as (ch & Hch & E).
  inversion E; subst a; clear E.
  assert (Hs : sel = selected_name h n1 n2 n3).
  { unfold selected_name.
    destruct (py_eq_int h 0); [congruence |].
    destruct (py_eq_int h 1); [congruence |].
    destruct (py_eq_int h 2); congruence. }
  exists h, n1, n2, n3. subst sel.
  repeat split; try by simplify_map_eq.
  intros z -> Hz. simplify_map_eq. f_equal.
  unfold selected_name, py_eq_int.
  repeat (case_match; [lia |]). reflexivity.
Qed.

Lemma C4_selected_hdmi_always_present_witness :
  ∃ a,
    state_attributes (Entity (sample_hd "Den" 1) "dreamscreen.den" (VStr "Den"))
      = Ok a ∧
    a !! "selected_hdmi" = Some (VStr "Console").
Proof.
  set (self := Entity _ _ _).
  destruct (is_Ok_true (state_attributes self)) as [a E];
    [vm_compute; reflexivity |].
  - exists a. split; [exact E |].
    destruct (C4_selected_hdmi_always_present self a eq_refl E)
      as (h & n1 & n2 & n3 & Hh & H1 & H2 & H3 & Hsel & _).
    assert (G : ∀ k v, snapshot_get self k = Ok (Some v) → a !! k = Some v).
    { intros k v Hk. rewrite (snapshot_get_Ok self a k E) in Hk. congruence. }
    rewrite (G "hdmi_input" (VInt 1)) in Hh by (vm_compute; reflexivity).
    rewrite (G "hdmi_input_1_name" (VStr "TV")) in H1 by (vm_compute; reflexivity).
    rewrite (G "hdmi_input_2_name" (VStr "Console")) in H2 by (vm_compute; reflexivity).
    rewrite (G "hdmi_input_3_name" (VStr "Player")) in H3 by (vm_compute; reflexivity).
    injection Hh as <-. injection H1 as <-. injection H2 as <-.
    injection H3 as <-. exact Hsel.
Defined.

(** C4 as stated fails: with [hdmi_input] out of range the key is in the
    snapshot, holding [None]. *)
Lemma C4_selected_hdmi_absent_counterexample :
  ¬ (∀ (self : DreamScreenEntity) (a : gmap string value) (z : Z),
       is_hdmi_device (device self) = true →
       getattr (device self) "hdmi_input" = Ok (VInt z) →
       (z < 0 ∨ 2 < z)%Z →
       state_attributes self = Ok a →
       a !! "selected_hdmi" = None).
Proof.
  intros Hclaim.
  pose (self := Entity (sample_hd "Den" 3) "dreamscreen.den" (VStr "Den")).
  assert (Hsel : snapshot_get self "selected_hdmi" = Ok (Some VNone))
    by (vm_compute; reflexivity).
  destruct (is_Ok_true (state_attributes self)) as [a E];
    [vm_compute; reflexivity |].
  rewrite (snapshot_get_Ok self a _ E) in Hsel.
  specialize (Hclaim self a 3%Z eq_refl eq_refl (or_intror eq_refl) E).
  congruence.
Qed.

(** *** Identifiers generated by the setup routine *)

Lemma string_app_nil_r (s : string) : s +:+ "" = s.
Proof.
  induction s as [| a s IH]; [done |].
  change (String a (s +:+ "") = String a s). by rewrite IH.
Qed.

Lemma candidate_inj (p : string) (j k : nat) :
  (1 ≤ j)%nat → (1 ≤ k)%nat → candidate p j = candidate p k → j = k.
Proof.
  unfold candidate. intros Hj Hk E.
  destruct (Nat.eqb_spec j 1) as [-> | Hj1], (Nat.eqb_spec k 1) as [-> | Hk1];
    try done.
  - rewrite <- (string_app_nil_r p) in E at 1.
    apply (inj (String.app p)) in E. discriminate E.
  - rewrite <- (string_app_nil_r p) in E at 2.
    apply (inj (String.app p)) in E. discriminate E.
  - apply (inj (String.app p)) in E. apply (inj (String.app "_")) in E.
    by apply (inj pretty) in E.
Qed.

Lemma ensure_unique_loop_fresh fuel p cur tries test s :
  ensure_unique_loop fuel p cur tries test = Some s → s ∉ cur.
Proof.
  revert tries test. induction fuel as [| fuel IH]; intros tries test; simpl;
    case_bool_decide; try done; try (intros [= <-]; done).
  apply IH.
Qed.

(** The rounds tested before the fuel runs out are all taken. *)
Lemma ensure_unique_loop_None (fuel : nat) p cur (tries : nat) :
  (1 ≤ tries)%nat →
  ensure_unique_loop fuel p cur tries (candidate p tries) = None →
  ∀ k : nat, (tries ≤ k ≤ tries + fuel)%nat → candidate p k ∈ cur.
Proof.
  revert tries. induction fuel as [| fuel IH]; intros tries Ht; simpl;
    case_bool_decide as Hin; try done; intros E k Hk.
  - by replace k with tries by lia.
  - destruct (decide (k = tries)) as [-> | Hne]; [done |].
    apply (IH (S tries)); [lia | | lia].
    unfold candidate at 1. by replace (Nat.eqb (S tries) 1) with false
      by (symmetry; apply Nat.eqb_neq; lia).
Qed.

(** The loop of [ensure_unique_string] ends: with one round for each
    string already taken, it returns a string, and one that is not taken. *)
Lemma ensure_unique_string_total p cur :
  ∃ s, ensure_unique_string p cur = Some s ∧ s ∉ cur.
Proof.
  unfold ensure_unique_string.
  destruct (ensure_unique_loop (length cur) p cur 1 p) as [s |] eqn:E.
  - exists s. split; [done |]. by eapply ensure_unique_loop_fresh.
  - exfalso.
    pose proof (ensure_unique_loop_None (length cur) p cur 1 (le_n 1) E) as Hall.
    set (cands := candidate p <$> seq 1 (S (length cur))).
    assert (Hnd : NoDup cands).
    { apply NoDup_fmap_2_strong; [| apply NoDup_seq].
      intros j k Hj%elem_of_seq Hk%elem_of_seq. apply candidate_inj; lia. }
    assert (Hsub : ∀ x, x ∈ cands → x ∈ cur).
    { intros x (k & -> & Hk%elem_of_seq)%list_elem_of_fmap. apply Hall. lia. }
    pose proof (submseteq_length _ _ (NoDup_submseteq _ _ Hnd Hsub)) as Hlen.
    unfold cands in Hlen. rewrite length_fmap, length_seq in Hlen. lia.
Qed.

Section SetupProperties.
Context `{Platform}.

Lemma generate_entity_id_str fmt s ids :
  ∃ eid, generate_entity_id fmt (VStr s) ids = Ok eid ∧ eid ∉ ids.
Proof.
  unfold generate_entity_id.
  assert (Hn : ∃ n, (if truthy (VStr s)
                     then @Ok string s else Ok DEVICE_DEFAULT_NAME) = Ok n)
    by (destruct (truthy (VStr s)); eauto).
  destruct Hn as [n ->]. simpl.
  destruct (ensure_unique_string_total (fmt (slugify n)) ids) as (eid & -> & Hf).
  eauto.
Qed.

Lemma generate_entity_id_fresh fmt n ids eid :
  generate_entity_id fmt n ids = Ok eid → eid ∉ ids.
Proof.
  unfold generate_entity_id. intros E.
  apply bind_Ok in E as (n' & _ & E).
  destruct (ensure_unique_string _ ids) as [s |] eqn:Es; [| discriminate E].
  injection E as <-.
  destruct (ensure_unique_string_total (fmt (slugify n')) ids) as (s' & Es' & Hf).
  congruence.
Qed.

(** What the loop keeps: the identifiers handed to the next adapter are
    those of the adapters made so far, and no two of them are equal. *)
Lemma setup_loop_spec devices : ∀ entities ids out,
  setup_loop devices entities ids = Ok out →
  entity_id <$> entities = ids → NoDup ids →
  NoDup (entity_id <$> out) ∧ device <$> out = ((device <$> entities) ++ devices)%list.
Proof.
  induction devices as [| d rest IH]; intros entities ids out E Hids Hnd; simpl in E.
  - injection E as <-. rewrite Hids, app_nil_r. done.
  - apply bind_Ok in E as (e & He & E).
    apply init_Ok in He as (n & Hn & Hd & _ & Hgen).
    apply generate_entity_id_fresh in Hgen.
    apply IH in E as [Hnd' Hdev].
    + split; [done |]. rewrite Hdev, fmap_app, <- app_assoc. simpl. by rewrite Hd.
    + by rewrite fmap_app, Hids.
    + apply NoDup_app. repeat split; [done | | apply NoDup_singleton].
      intros x Hx ->%list_elem_of_singleton. done.
Qed.

Lemma setup_loop_total devices : ∀ entities ids,
  Forall (λ d, ∃ s, attrs d !! "name" = Some (VStr s)) devices →
  ∃ out, setup_loop devices entities ids = Ok out.
Proof.
  induction devices as [| d rest IH]; intros entities ids Hall; simpl; [eauto |].
  apply Forall_cons in Hall as [[s Hs] Hrest].
  unfold __init__, getattr. rewrite Hs. simpl.
  destruct (generate_entity_id_str ENTITY_ID_FORMAT s ids) as (eid & -> & _).
  simpl. by apply IH.
Qed.

(** C7: for every sequence of discovered devices (each with a name, two of
    them may have the same), the setup loop makes one adapter per device,
    in order, and the identifiers of the adapters are pairwise distinct. *)
Theorem C7_generated_identifiers_distinct :
  ∀ devices : list device_handle,
    Forall (λ d, ∃ s, attrs d !! "name" = Some (VStr s)) devices →
    ∃ entities,
      async_setup devices = Ok entities ∧
      device <$> entities = devices ∧
      NoDup (entity_id <$> entities).
Proof.
  intros devices Hall.
  destruct (setup_loop_total devices [] [] Hall) as [out E].
  exists out. split; [exact E |].
  apply setup_loop_spec in E as [Hnd Hdev]; [| done | apply NoDup_nil_2].
  done.
Qed.

End SetupProperties.

Lemma C7_generated_identifiers_distinct_witness :
  ∃ entities,
    @async_setup sample_platform
      [sample_sidekick "Den"; sample_hd "Den" 0; sample_sidekick "Den"]
      = Ok entities ∧
    device <$> entities
      = [sample_sidekick "Den"; sample_hd "Den" 0; sample_sidekick "Den"] ∧
    NoDup (entity_id <$> entities).
Proof.
  apply (@C7_generated_identifiers_distinct sample_platform).
  repeat apply Forall_cons_2; try apply Forall_nil_2;
    exists "Den"; vm_compute; reflexivity.
Defined.

Example async_setup_same_name :
  entity_id <$> default [] (match @async_setup sample_platform
      [sample_sidekick "Den"; sample_hd "Den" 0; sample_sidekick "Den"] with
      | Ok es => Some es | Raise _ => None end)
  = ["dreamscreen.Den"; "dreamscreen.Den_2"; "dreamscreen.Den_3"].
Proof. vm_compute. reflexivity. Qed.

(** *** The service handler *)

Lemma positions_spec p es : ∀ (k i : nat),
  i ∈ positions p es k ↔
  (k ≤ i)%nat ∧ ∃ e, es !! (i - k)%nat = Some e ∧ p e = true.
Proof.
  induction es as [| e es IH]; intros k i; simpl.
  - split; [by intros ?%elem_of_nil | by intros (_ & ? & ? & _)].
  - assert (Hrest : i ∈ positions p es (S k) ↔
              (k < i)%nat ∧ ∃ e', (e :: es) !! (i - k)%nat = Some e' ∧ p e' = true).
    { rewrite IH. split.
      - intros (Hle & e' & He' & Hp). split; [lia |]. exists e'. split; [| done].
        replace (i - k)%nat with (S (i - S k)) by lia. done.
      - intros (Hlt & e' & He' & Hp). split; [lia |]. exists e'. split; [| done].
        replace (i - k)%nat with (S (i - S k)) in He' by lia. done. }
    destruct (p e) eqn:Hpe.
    + rewrite elem_of_cons, Hrest. split.
      * intros [-> | (Hlt & He')]; [| split; [lia | done]].
        split; [lia |]. exists e. by rewrite Nat.sub_diag.
      * intros (Hle & e' & He' & Hp).
        destruct (decide (i = k)) as [-> | Hne]; [by left | right].
        split; [lia | eauto].
    + rewrite Hrest. split.
      * intros (Hlt & He'). split; [lia | done].
      * intros (Hle & e' & He' & Hp).
        destruct (decide (i = k)) as [-> | Hne]; [| split; [lia | eauto]].
        rewrite Nat.sub_diag in He'. simpl in He'. congruence.
Qed.

Lemma positions_NoDup p es : ∀ k, NoDup (positions p es k).
Proof.
  induction es as [| e es IH]; intros k; simpl; [apply NoDup_nil_2 |].
  destruct (p e); [| apply IH].
  apply NoDup_cons. split; [| apply IH].
  intros (Hle & _)%positions_spec. lia.
Qed.

Lemma extract_NoDup es data : NoDup (async_extract_from_service es data).
Proof.
  unfold async_extract_from_service.
  destruct (data !! ATTR_ENTITY_ID); apply positions_NoDup.
Qed.

Lemma extract_lt es data i :
  i ∈ async_extract_from_service es data → is_Some (es !! i).
Proof.
  unfold async_extract_from_service.
  destruct (data !! ATTR_ENTITY_ID);
    intros (_ & e & He & _)%positions_spec;
    rewrite Nat.sub_0_r in He; eauto.
Qed.

(** The targets named by a list of identifiers. *)
Lemma extract_ids es (data : gmap string value) ids i :
  data !! ATTR_ENTITY_ID = Some (VList ids) →
  i ∈ async_extract_from_service es data ↔
  ∃ e, es !! i = Some e ∧ entity_id e ∈ ids.
Proof.
  intros Hd. unfold async_extract_from_service. rewrite Hd.
  rewrite positions_spec, Nat.sub_0_r. split.
  - intros (_ & e & He & Hp%bool_decide_eq_true). eauto.
  - intros (e & He & Hp). split; [lia |]. exists e.
    split; [done | by apply bool_decide_eq_true].
Qed.

(** The loop over the targets: every target is written once, in order, and
    nothing else is touched. *)
Lemma write_targets_spec a v v' : ∀ targets w updates,
  stored_value a v = Ok v' →
  NoDup targets →
  (∀ i, i ∈ targets → is_Some (entities w !! i)) →
  ∃ w1,
    write_targets a v targets w updates = (w1, Ok (updates ++ targets)) ∧
    trace w1 = (trace w ++ ((λ i, Setattr i a v) <$> targets))%list ∧
    ∀ i, entities w1 !! i =
         if bool_decide (i ∈ targets) then written a v' <$> entities w !! i
         else entities w !! i.
Proof.
  intros targets w updates Hv.
  revert w updates. induction targets as [| t rest IH]; intros w updates Hnd Hin.
  - exists w. simpl. rewrite !app_nil_r. done.
  - apply NoDup_cons in Hnd as [Ht Hnd].
    destruct (Hin t) as [e He]; [by left |].
    simpl. rewrite He. unfold setattr. rewrite Hv. simpl.
    set (w' := World _ _).
    destruct (IH w' (updates ++ [t])%list Hnd) as (w1 & Hw & Htr & Hes).
    { intros i Hi. unfold w'. simpl.
      destruct (decide (i = t)) as [-> | Hne]; [done |].
      rewrite list_lookup_insert_ne by done. apply Hin. by right. }
    exists w1. rewrite Hw, Htr, <- !app_assoc. simpl.
    split; [done |]. split; [by rewrite <- app_assoc |].
    intros i. rewrite Hes. unfold w'. simpl.
    destruct (decide (i = t)) as [-> | Hne].
    + rewrite (bool_decide_eq_false_2 _ Ht).
      rewrite bool_decide_eq_true_2 by by left.
      rewrite list_lookup_insert_eq by by eapply lookup_lt_Some.
      by rewrite He.
    + rewrite list_lookup_insert_ne by done.
      destruct (decide (i ∈ rest)) as [Hi | Hi].
      * rewrite !bool_decide_eq_true_2; [done | by right | done].
      * rewrite !bool_decide_eq_false_2; [done | | done].
        by intros [-> | ?]%elem_of_cons.
Qed.

Section HandlerProperties.
Context `{Platform}.

Lemma wait_spec : ∀ updates w,
  NoDup updates →
  trace (wait updates w) = (trace w ++ (UpdateState <$> updates))%list ∧
  ∀ i, entities (wait updates w) !! i =
       if bool_decide (i ∈ updates) then update <$> entities w !! i
       else entities w !! i.
Proof.
  unfold wait.
  induction updates as [| u rest IH]; intros w Hnd; simpl.
  - by rewrite app_nil_r.
  - apply NoDup_cons in Hnd as [Hu Hnd].
    destruct (IH (World (alter update u (entities w))
                        (trace w ++ [UpdateState u])) Hnd) as [Htr Hes].
    rewrite Htr. simpl. rewrite <- app_assoc. split; [done |].
    intros i. rewrite Hes. simpl.
    destruct (decide (i = u)) as [-> | Hne].
    + rewrite (bool_decide_eq_false_2 _ Hu).
      rewrite bool_decide_eq_true_2 by by left.
      apply list_lookup_alter_eq.
    + rewrite list_lookup_alter_ne by done.
      destruct (decide (i ∈ rest)) as [Hi | Hi].
      * rewrite !bool_decide_eq_true_2; [done | by right | done].
      * rewrite !bool_decide_eq_false_2; [done | | done].
        by intros [-> | ?]%elem_of_cons.
Qed.

End HandlerProperties.

(** *** Validation *)

Lemma dict_get_fmap {A B : Type} (f : A → B) k (d : list (string * A)) :
  dict_get k (map (λ '(n, a), (n, f a)) d) = f <$> dict_get k d.
Proof.
  induction d as [| [n a] d IH]; simpl; [done |].
  destruct (String.eqb k n); [done | apply IH].
Qed.

Lemma table_cases n sd :
  dict_get n SERVICE_TO_ATTRIBUTE = Some sd →
  (n = SERVICE_MODE ∧
   sd = ServiceDefinition "mode" SERVICE_MODE_SCHEMA CONF_MODE) ∨
  (n = SERVICE_HDMI_SOURCE ∧
   sd = ServiceDefinition "hdmi_input" SERVICE_HDMI_SOURCE_SCHEMA CONF_HDMI_SOURCE) ∨
  (n = SERVICE_BRIGHTNESS ∧
   sd = ServiceDefinition "brightness" SERVICE_BRIGHTNESS_SCHEMA CONF_BRIGHTNESS) ∨
  (n = SERVICE_AMBIENT_SCENE ∧
   sd = ServiceDefinition "ambient_scene" SERVICE_AMBIENT_SCENE_SCHEMA CONF_AMBIENT_SCENE) ∨
  (n = SERVICE_AMBIENT_COLOR ∧
   sd = ServiceDefinition "ambient_color" SERVICE_AMBIENT_COLOR_SCHEMA CONF_AMBIENT_COLOR).
Proof.
  unfold SERVICE_TO_ATTRIBUTE. cbn [dict_get]. intros E.
  repeat match type of E with
         | context [String.eqb n ?k] =>
             destruct (String.eqb_spec n k) as [-> | _];
             [injection E as <-; tauto |]
         end.
  discriminate E.
Qed.

Section ValidationProperties.
Context `{Platform}.

Lemma registered_schema n :
  dict_get n registered_services = schema <$> dict_get n SERVICE_TO_ATTRIBUTE.
Proof. apply dict_get_fmap. Qed.

Lemma validate_range_unfold lo hi v :
  validate (IntRange lo hi) v =
  match as_int v with
  | Some z => if ((lo <=? z) && (z <=? hi))%Z then Ok (VInt z) else Raise Invalid
  | None => Raise Invalid
  end.
Proof. reflexivity. Qed.

Lemma validate_range_Ok lo hi v out :
  validate (IntRange lo hi) v = Ok out →
  ∃ z, as_int v = Some z ∧ (lo ≤ z ≤ hi)%Z ∧ out = VInt z.
Proof.
  rewrite validate_range_unfold.
  destruct (as_int v) as [z |]; [| done].
  destruct ((lo <=? z) && (z <=? hi))%Z eqn:Hb; [| done].
  intros [= <-]. exists z. split; [done |]. split; [lia | done].
Qed.


Lemma validate_range_int lo hi z :
  (lo ≤ z ≤ hi)%Z →
  validate (IntRange lo hi) (VInt z) = Ok (VInt z).
Proof.
  intros Hz. rewrite validate_range_unfold. simpl.
  replace ((lo <=? z) && (z <=? hi))%Z with true; [done |].
  symmetry. apply andb_true_iff. split; apply Z.leb_le; lia.
Qed.



(** A request with just the two keys of its schema. *)
Lemma schema_validate_request p f raw ids v vv :
  p ≠ ATTR_ENTITY_ID →
  cv_entity_ids raw = Ok ids →
  validate f v = Ok vv →
  schema_validate [(ATTR_ENTITY_ID, entity_ids); (p, f)]
                  (<[ATTR_ENTITY_ID := raw]> (<[p := v]> ∅))
  = Ok (<[ATTR_ENTITY_ID := VList ids]> (<[p := vv]> ∅)).
Proof.
  intros Hp Hids Hv. unfold schema_validate.
  replace (forallb _ _) with true.
  - unfold validate_keys.
    rewrite lookup_insert_eq. simpl. rewrite Hids. simpl.
    rewrite lookup_insert_ne by done. rewrite lookup_insert_eq, Hv. done.
  - symmetry. apply forallb_forall. intros k Hk.
    apply bool_decide_eq_true.
    apply list_elem_of_In, list_elem_of_fmap in Hk as ([k' x] & -> & Hkx).
    apply elem_of_map_to_list in Hkx. simpl.
    apply lookup_insert_Some in Hkx as [[<- _] | [_ Hkx]]; [set_solver |].
    apply lookup_insert_Some in Hkx as [[<- _] | [_ Hkx]]; [set_solver |].
    by rewrite lookup_empty in Hkx.
Qed.

(** *** The handler on a validated call *)

Lemma handler_spec w svc sd (dat : gmap string value) v v' :
  dict_get svc SERVICE_TO_ATTRIBUTE = Some sd →
  dat !! param sd = Some v →
  stored_value (attribute sd) v = Ok v' →
  let targets := async_extract_from_service (entities w) dat in
  ∃ w2,
    async_handle_dreamscreen_services w (Call svc dat) = (w2, Ok ()) ∧
    trace w2 = trace w ++ ((λ i, Setattr i (attribute sd) v) <$> targets)
                       ++ (UpdateState <$> targets) ∧
    ∀ i, entities w2 !! i =
         if bool_decide (i ∈ targets)
         then (λ e, update (written (attribute sd) v' e)) <$> entities w !! i
         else entities w !! i.
Proof.
  intros Hsd Hv Hst targets.
  unfold async_handle_dreamscreen_services. cbn [service data].
  rewrite Hsd. cbv zeta. rewrite Hv. cbn [from_option id]. fold targets.
  destruct (write_targets_spec (attribute sd) v v' targets w [] Hst)
    as (w1 & Hw & Htr & Hes).
  { apply extract_NoDup. }
  { intros i. apply extract_lt. }
  rewrite Hw. simpl.
  destruct (wait_spec targets w1 (extract_NoDup _ _)) as [Htr2 Hes2].
  fold targets in Htr2, Hes2.
  assert (Hgoal : trace (wait targets w1)
            = trace w ++ ((λ i, Setattr i (attribute sd) v) <$> targets)
                      ++ (UpdateState <$> targets) ∧
          ∀ i, entities (wait targets w1) !! i =
               if bool_decide (i ∈ targets)
               then (λ e, update (written (attribute sd) v' e)) <$> entities w !! i
               else entities w !! i).
  { split; [by rewrite Htr2, Htr, app_assoc |].
    intros i. rewrite Hes2, Hes.
    destruct (bool_decide (i ∈ targets)); [| done].
    by destruct (entities w !! i). }
  destruct targets as [| t rest] eqn:Ht.
  - exists w1. split; [done |]. unfold wait in Hgoal. simpl in Hgoal. done.
  - eexists. split; [done |]. done.
Qed.

End ValidationProperties.

Section ServiceProperties.
Context `{Platform}.

(** C8: on a call of one of the five services whose targets resolve to no
    adapter the handler completes without an error; nothing is written and
    no refresh is started: the world, trace included, is as before. *)
Theorem C8_no_target_no_effect :
  ∀ (w : world) (call : ServiceCall) (sd : service_definition),
    dict_get (service call) SERVICE_TO_ATTRIBUTE = Some sd →
    async_extract_from_service (entities w) (data call) = [] →
    async_handle_dreamscreen_services w call = (w, Ok ()).
Proof.
  intros w call sd Hsd Hnone.
  unfold async_handle_dreamscreen_services.
  rewrite Hsd. cbv zeta. rewrite Hnone. reflexivity.
Qed.

(** C10: on a validated call the handler does, for each target, one
    [setattr] of the attribute the table names for the service, and then
    the refreshes.  The write changes that attribute and no other, it does
    not look at the class of the device, and an adapter that is not a
    target is left as it was. *)
Theorem C10_handler_writes_named_attribute_only :
  ∀ (w : world) (svc : string) (sd : service_definition)
    (validated : gmap string value) (v v' : value),
    dict_get svc SERVICE_TO_ATTRIBUTE = Some sd →
    validated !! param sd = Some v →
    stored_value (attribute sd) v = Ok v' →
    let targets := async_extract_from_service (entities w) validated in
    ∃ w2,
      async_handle_dreamscreen_services w (Call svc validated) = (w2, Ok ()) ∧
      trace w2 = trace w ++ ((λ i, Setattr i (attribute sd) v) <$> targets)
                         ++ (UpdateState <$> targets) ∧
      (∀ i e, entities w !! i = Some e → i ∉ targets →
              entities w2 !! i = Some e) ∧
      (∀ i e, entities w !! i = Some e → i ∈ targets →
         let e1 := written (attribute sd) v' e in
         entities w2 !! i = Some (update e1) ∧
         class_of (device e1) = class_of (device e) ∧
         attrs (device e1) !! attribute sd = Some v' ∧
         ∀ a, a ≠ attribute sd →
              attrs (device e1) !! a = attrs (device e) !! a) ∧
      (attribute sd ≠ "ambient_color" → v' = v).
Proof.
  intros w svc sd validated v v' Hsd Hv Hst targets.
  destruct (handler_spec w svc sd validated v v' Hsd Hv Hst)
    as (w2 & Hrun & Htr & Hes).
  fold targets in Htr, Hes.
  exists w2. split; [done |]. split; [done |].
  split; [| split].
  - intros i e He Hi. rewrite Hes, bool_decide_eq_false_2 by done. done.
  - intros i e He Hi e1. rewrite Hes, bool_decide_eq_true_2, He by done.
    split; [done |]. split; [done |]. unfold e1, written. simpl.
    split; [apply lookup_insert_eq |].
    intros a Ha. by apply lookup_insert_ne.
  - intros Ha. unfold stored_value in Hst.
    destruct (String.eqb_spec (attribute sd) "ambient_color"); [done |].
    destruct (bool_decide _); [| congruence].
    destruct v; congruence.
Qed.

(** C2: [set_mode] with a mode from 0 to 3 succeeds; the adapter of every
    target, once the handler has written the mode onto its device, has
    state ["on"] if the mode is not zero and ["off"] if it is; the world
    after the call holds that adapter, refreshed. *)
Theorem C2_state_after_set_mode :
  ∀ (w : world) (raw : request_value) (ids : list string) (m : Z),
    cv_entity_ids raw = Ok ids →
    (0 ≤ m ≤ 3)%Z →
    ∃ w2,
      call_service w
        (Call SERVICE_MODE
              (<[ATTR_ENTITY_ID := raw]> (<[CONF_MODE := Value (VInt m)]> ∅)))
        = (w2, Ok ()) ∧
      ∀ i e, entities w !! i = Some e → entity_id e ∈ ids →
        let e1 := written "mode" (VInt m) e in
        state e1 = Ok (if (m =? 0)%Z then "off" else "on") ∧
        (state e1 = Ok "on" ↔ m ≠ 0%Z) ∧
        entities w2 !! i = Some (update e1).
Proof.
  intros w raw ids m Hids Hm.
  unfold call_service. cbn [service data].
  replace (dict_get SERVICE_MODE registered_services)
    with (Some SERVICE_MODE_SCHEMA) by reflexivity.
  unfold SERVICE_MODE_SCHEMA.
  rewrite (schema_validate_request CONF_MODE _ raw ids (VInt m) (VInt m));
    [| done | done | by apply validate_range_int].
  set (validated := <[ATTR_ENTITY_ID := VList ids]> (<[CONF_MODE := VInt m]> ∅)).
  destruct (handler_spec w SERVICE_MODE
              (ServiceDefinition "mode" SERVICE_MODE_SCHEMA CONF_MODE)
              validated (VInt m) (VInt m))
    as (w2 & Hrun & _ & Hes); [done | done | done |].
  exists w2. split; [exact Hrun |].
  intros i e He Hin. set (e1 := written "mode" (VInt m) e).
  assert (Hstate : state e1 = Ok (if (m =? 0)%Z then "off" else "on")).
  { unfold state, e1, written, getattr. simpl. rewrite lookup_insert_eq. simpl.
    by destruct (m =? 0)%Z. }
  split; [done |]. split.
  - rewrite Hstate. destruct (Z.eqb_spec m 0); split; congruence.
  - rewrite Hes, bool_decide_eq_true_2, He; [done |].
    apply (extract_ids _ validated ids); [done | eauto].
Qed.

End ServiceProperties.

Lemma C8_no_target_no_effect_witness :
  @async_handle_dreamscreen_services sample_platform sample_world
    (Call SERVICE_MODE
          (<[ATTR_ENTITY_ID := VList ["dreamscreen.cellar"]]>
             (<[CONF_MODE := VInt 2]> ∅)))
  = (sample_world, Ok ()).
Proof.
  apply (@C8_no_target_no_effect sample_platform sample_world _
           (ServiceDefinition "mode" SERVICE_MODE_SCHEMA CONF_MODE)).
  - reflexivity.
  - unfold async_extract_from_service. cbn [data].
    rewrite lookup_insert_eq. reflexivity.
Defined.

(** The same request through the platform: it validates, and the call
    leaves the world as it was. *)
Example call_without_target :
  @call_service sample_platform sample_world
    (Call SERVICE_MODE
          (<[ATTR_ENTITY_ID := Value (VList ["dreamscreen.cellar"])]>
             (<[CONF_MODE := Value (VInt 2)]> ∅)))
  = (sample_world, Ok ()).
Proof.
  unfold call_service. cbn [service data].
  replace (dict_get SERVICE_MODE (@registered_services))
    with (Some SERVICE_MODE_SCHEMA) by reflexivity.
  unfold SERVICE_MODE_SCHEMA.
  rewrite (@schema_validate_request sample_platform CONF_MODE _
             (VList ["dreamscreen.cellar"]) ["dreamscreen.cellar"]
             (VInt 2) (VInt 2)) by done.
  unfold async_handle_dreamscreen_services. cbn [service data].
  replace (dict_get SERVICE_MODE SERVICE_TO_ATTRIBUTE)
    with (Some (ServiceDefinition "mode" SERVICE_MODE_SCHEMA CONF_MODE))
    by reflexivity.
  cbv zeta. unfold async_extract_from_service.
  rewrite lookup_insert_eq. reflexivity.
Qed.

Lemma C10_handler_writes_named_attribute_only_witness :
  ∃ w2,
    @async_handle_dreamscreen_services sample_platform sample_world
      (Call SERVICE_HDMI_SOURCE
            (<[ATTR_ENTITY_ID := VList ["dreamscreen.den"]]>
               (<[CONF_HDMI_SOURCE := VInt 1]> ∅)))
      = (w2, Ok ()) ∧
    trace w2 = [Setattr 0 "hdmi_input" (VInt 1); UpdateState 0] ∧
    (device <$> entities w2 !! 0) ≫= (λ d, attrs d !! "hdmi_input")
      = Some (VInt 1) ∧
    (class_of ∘ device <$> entities w2 !! 0) = Some OtherDevice.
Proof.
  set (validated := <[ATTR_ENTITY_ID := VList ["dreamscreen.den"]]>
                      (<[CONF_HDMI_SOURCE := VInt 1]> ∅)).
  destruct (@C10_handler_writes_named_attribute_only sample_platform
              sample_world SERVICE_HDMI_SOURCE
              (ServiceDefinition "hdmi_input" SERVICE_HDMI_SOURCE_SCHEMA
                                 CONF_HDMI_SOURCE)
              validated (VInt 1) (VInt 1) eq_refl eq_refl eq_refl)
    as (w2 & Hrun & Htr & _ & Hin & _).
  assert (Ht : async_extract_from_service (entities sample_world) validated = [0])
    by (unfold async_extract_from_service, validated;
        rewrite lookup_insert_eq; reflexivity).
  rewrite Ht in Htr, Hin.
  exists w2. split; [exact Hrun |]. split; [exact Htr |].
  pose proof (Hin 0 _ eq_refl (list_elem_of_here _ _)) as Hx.
  cbv zeta in Hx. destruct Hx as (He & Hcls & Hattr & _).
  rewrite He. simpl. split; [exact Hattr | reflexivity].
Defined.
Lemma C2_state_after_set_mode_witness :
  ∃ w2,
    @call_service sample_platform sample_world
      (Call SERVICE_MODE
            (<[ATTR_ENTITY_ID := Value (VList ["dreamscreen.den"])]>
               (<[CONF_MODE := Value (VInt 0)]> ∅)))
      = (w2, Ok ()) ∧
    (state <$> entities w2 !! 0) = Some (Ok "off").
Proof.
  destruct (@C2_state_after_set_mode sample_platform sample_world
              (VList ["dreamscreen.den"]) ["dreamscreen.den"] 0%Z
              eq_refl ltac:(lia))
    as (w2 & Hrun & Hst).
  exists w2. split; [exact Hrun |].
  pose proof (Hst 0 _ eq_refl (list_elem_of_here _ _)) as Hx.
  cbv zeta in Hx. destruct Hx as (Hoff & _ & He).
  rewrite He. exact (f_equal Some Hoff).
Defined.

(** *** The ambient colour *)

Lemma in_all_ascii (c : ascii) : c ∈ all_ascii.
Proof.
  unfold all_ascii. apply list_elem_of_fmap. exists (nat_of_ascii c).
  split; [by rewrite ascii_nat_embedding |].
  apply elem_of_seq. pose proof (nat_ascii_bounded c). lia.
Qed.

Lemma hex_pairs_checked :
  forallb (λ c1, forallb (hex_pair_ok c1) all_ascii) all_ascii = true.
Proof. vm_compute. reflexivity. Qed.

Lemma upper_byte_hex (c1 c2 : ascii) :
  is_hex_digit c1 = true → is_hex_digit c2 = true →
  str_upper (byte_hex (byte_of_hex c1 c2))
  = String (ascii_upper c1) (String (ascii_upper c2) "").
Proof.
  intros H1 H2.
  pose proof hex_pairs_checked as Hall.
  rewrite forallb_forall in Hall.
  specialize (Hall c1 (proj1 (list_elem_of_In _ _) (in_all_ascii c1))).
  rewrite forallb_forall in Hall.
  specialize (Hall c2 (proj1 (list_elem_of_In _ _) (in_all_ascii c2))).
  unfold hex_pair_ok in Hall. rewrite H1, H2 in Hall. simpl in Hall.
  by apply String.eqb_eq.
Qed.

Lemma str_upper_app (s t : string) :
  str_upper (s +:+ t) = str_upper s +:+ str_upper t.
Proof.
  induction s as [| c s IH]; [done |].
  change (String (ascii_upper c) (str_upper (s +:+ t))
          = String (ascii_upper c) (str_upper s +:+ str_upper t)).
  by rewrite IH.
Qed.

(** Every colour string passes [vol.Match]. *)
Lemma spec_color_matches (s : string) :
  spec_is_hex_color s = true → hex_color_match s = true.
Proof.
  destruct s as [| h r]; [done |]. unfold spec_is_hex_color, hex_color_match.
  destruct (Ascii.eqb_spec h "#") as [-> | Hh];
    [| by destruct h as [[] [] [] [] [] [] [] []]].
  intros [Hhex Hlen]%andb_true_iff.
  destruct r as [| c1 [| c2 [| c3 [| c4 [| c5 [| c6 [| c7 r]]]]]]];
    try discriminate Hlen;
    cbn [list_ascii_of_string forallb] in Hhex;
    repeat (let Hc := fresh "Hc" in
            apply andb_true_iff in Hhex as [Hc Hhex]);
    cbn [hex_run]; repeat match goal with
                          | Hc : is_hex_digit _ = true |- _ => rewrite Hc; clear Hc
                          end;
    reflexivity.
Qed.

(** The setter of the library and the adapter's formatting together
    normalise a colour string. *)
Lemma color_roundtrip (s : string) :
  spec_is_hex_color s = true →
  ∃ b, ambient_color_bytes s = Some b ∧
       "#" +:+ str_upper (bytes_hex b) = spec_normalized_color s.
Proof.
  destruct s as [| h r]; [done |].
  unfold spec_is_hex_color, ambient_color_bytes, spec_normalized_color.
  destruct (Ascii.eqb_spec h "#") as [-> | Hh];
    [| by destruct h as [[] [] [] [] [] [] [] []]].
  intros [Hhex Hlen]%andb_true_iff. rewrite Hhex.
  destruct r as [| c1 [| c2 [| c3 [| c4 [| c5 [| c6 [| c7 r]]]]]]];
    try discriminate Hlen.
  - cbn [list_ascii_of_string forallb] in *.
    apply andb_true_iff in Hhex as [H1 Hhex].
    apply andb_true_iff in Hhex as [H2 Hhex].
    apply andb_true_iff in Hhex as [H3 _].
    eexists. split; [reflexivity |].
    cbn [bytes_hex foldr]. rewrite !str_upper_app.
    rewrite !upper_byte_hex by done. reflexivity.
  - cbn [list_ascii_of_string forallb] in *.
    repeat (let Hc := fresh "Hc" in
            apply andb_true_iff in Hhex as [Hc Hhex]).
    eexists. split; [reflexivity |].
    cbn [bytes_hex foldr]. rewrite !str_upper_app.
    rewrite !upper_byte_hex by done. reflexivity.
Qed.

Lemma getattr_written a v e k :
  getattr (device (written a v e)) k
  = if String.eqb k a then Ok v else getattr (device e) k.
Proof.
  unfold getattr, written. simpl.
  destruct (String.eqb_spec k a) as [-> | Hne].
  - by rewrite lookup_insert_eq.
  - by rewrite lookup_insert_ne.
Qed.

Ltac step_bind E :=
  let v := fresh "v" in
  let Hv := fresh "Hv" in
  apply bind_Ok in E as (v & Hv & E); rewrite Hv; cbn [mbind result_bind].

(** A write of colour bytes keeps the snapshot readable and shows in it as
    ["#"] and the upper-case hex of the bytes. *)
Lemma state_attributes_written_color e a0 b :
  state_attributes e = Ok a0 →
  ∃ a1, state_attributes (written "ambient_color" (VBytes b) e) = Ok a1 ∧
        a1 !! "ambient_color" = Some (VStr ("#" +:+ str_upper (bytes_hex b))).
Proof.
  intros E. unfold state_attributes in *.
  rewrite !getattr_written. cbn [String.eqb Ascii.eqb Bool.eqb].
  replace (is_hdmi_device (device (written "ambient_color" (VBytes b) e)))
    with (is_hdmi_device (device e)) by reflexivity.
  do 4 step_bind E.
  apply bind_Ok in E as (v5 & _ & E). apply bind_Ok in E as (v6 & _ & E).
  cbn [mbind result_bind hex_method].
  step_bind E.
  destruct (is_hdmi_device (device e)).
  - do 6 step_bind E.
    eexists. split; [reflexivity |]. by simplify_map_eq.
  - eexists. split; [reflexivity |]. by simplify_map_eq.
Qed.

Section ColorProperties.
Context `{Platform}.

(** C5: [set_ambient_color] with a colour string (three or six hex digits
    after [#], any case) succeeds, and the snapshot of every target whose
    attributes could be read before has, once the handler has written the
    colour, [ambient_color] equal to the string normalised to an uppercase
    [#RRGGBB]. *)
Theorem C5_ambient_color_normalized :
  ∀ (w : world) (raw : request_value) (ids : list string) (s : string),
    cv_entity_ids raw = Ok ids →
    spec_is_hex_color s = true →
    ∃ w2 b,
      call_service w
        (Call SERVICE_AMBIENT_COLOR
              (<[ATTR_ENTITY_ID := raw]>
                 (<[CONF_AMBIENT_COLOR := Value (VStr s)]> ∅)))
        = (w2, Ok ()) ∧
      ∀ i e a0, entities w !! i = Some e → entity_id e ∈ ids →
        state_attributes e = Ok a0 →
        entities w2 !! i
          = Some (update (written "ambient_color" (VBytes b) e)) ∧
        ∃ a1,
          state_attributes (written "ambient_color" (VBytes b) e) = Ok a1 ∧
          a1 !! "ambient_color" = Some (VStr (spec_normalized_color s)).
Proof.
  intros w raw ids s Hids Hs.
  destruct (color_roundtrip s Hs) as (b & Hb & Hnorm).
  unfold call_service. cbn [service data].
  replace (dict_get SERVICE_AMBIENT_COLOR registered_services)
    with (Some SERVICE_AMBIENT_COLOR_SCHEMA) by reflexivity.
  unfold SERVICE_AMBIENT_COLOR_SCHEMA.
  rewrite (schema_validate_request CONF_AMBIENT_COLOR _ raw ids (VStr s) (VStr s));
    [| done | done | by simpl; rewrite (spec_color_matches s Hs)].
  set (validated := <[ATTR_ENTITY_ID := VList ids]>
                      (<[CONF_AMBIENT_COLOR := VStr s]> ∅)).
  destruct (handler_spec w SERVICE_AMBIENT_COLOR
              (ServiceDefinition "ambient_color" SERVICE_AMBIENT_COLOR_SCHEMA
                                 CONF_AMBIENT_COLOR)
              validated (VStr s) (VBytes b))
    as (w2 & Hrun & _ & Hes); [done | done | |].
  { unfold stored_value. cbn [attribute]. simpl String.eqb. by rewrite Hb. }
  exists w2, b. split; [exact Hrun |].
  intros i e a0 He Hin Ha0. split.
  - rewrite Hes, bool_decide_eq_true_2, He; [done |].
    apply (extract_ids _ validated ids); [done | eauto].
  - destruct (state_attributes_written_color e a0 b Ha0) as (a1 & Ha1 & Hc).
    exists a1. split; [done |]. by rewrite Hc, Hnorm.
Qed.

End ColorProperties.

Lemma C5_ambient_color_normalized_witness :
  ∃ w2,
    @call_service sample_platform sample_world
      (Call SERVICE_AMBIENT_COLOR
            (<[ATTR_ENTITY_ID := Value (VList ["dreamscreen.den"])]>
               (<[CONF_AMBIENT_COLOR := Value (VStr "#fA0")]> ∅)))
      = (w2, Ok ()) ∧
    (entities w2 !! 0) ≫= (λ e, match snapshot_get e "ambient_color" with
                                | Ok v => v
                                | Raise _ => None
                                end)
      = Some (VStr "#FFAA00").
Proof.
  destruct (@C5_ambient_color_normalized sample_platform sample_world
              (VList ["dreamscreen.den"]) ["dreamscreen.den"] "#fA0"
              eq_refl eq_refl)
    as (w2 & b & Hrun & Hst).
  exists w2. split; [exact Hrun |].
  destruct (is_Ok_true (state_attributes
              (Entity (sample_sidekick "Den") "dreamscreen.den" (VStr "Den"))))
    as [a0 Ha0]; [vm_compute; reflexivity |].
  destruct (Hst 0 _ a0 eq_refl (list_elem_of_here _ _) Ha0)
    as (He & a1 & Ha1 & Hc).
  rewrite He. cbn [mbind option_bind].
  change (update (written "ambient_color" (VBytes b) ?e))
    with (written "ambient_color" (VBytes b) e).
  by rewrite (snapshot_get_Ok _ a1 _ Ha1), Hc.
Defined.

Lemma hex_run_spec n : ∀ s r,
  hex_run n s = Some r ↔
  ∃ ds, length ds = n ∧ forallb is_hex_digit ds = true ∧
        s = string_of_list_ascii ds +:+ r.
Proof.
  induction n as [| n IH]; intros s r; simpl.
  - split.
    + intros [= ->]. by exists [].
    + intros (ds & Hlen & _ & ->). by destruct ds.
  - destruct s as [| c s].
    + split; [done |]. intros ([| d ds] & Hlen & _ & Hs); done.
    + destruct (is_hex_digit c) eqn:Hc.
      * rewrite IH. split.
        -- intros (ds & Hlen & Hhex & ->). exists (c :: ds). simpl.
           rewrite Hc, Hhex, Hlen. done.
        -- intros ([| d ds] & Hlen & Hhex & Hs); [done |].
           simpl in *. injection Hs as -> ->. injection Hlen as Hlen.
           apply andb_true_iff in Hhex as [_ Hhex]. eauto.
      * split; [done |].
        intros ([| d ds] & Hlen & Hhex & Hs); [done |].
        simpl in *. injection Hs as -> ->. by rewrite Hc in Hhex.
Qed.

Lemma at_dollar_spec r : at_dollar r = true ↔ r = "" ∨ r = newline.
Proof.
  destruct r as [| c [| c' r]]; simpl.
  - split; [by left | done].
  - destruct (Ascii.eqb_spec c "010") as [-> | Hne].
    + split; [by right | done].
    + split; [done |]. intros [? | [= ?]]; done.
  - split; [done |]. intros [? | ?]; done.
Qed.

Lemma spec_is_hex_color_spec s :
  spec_is_hex_color s = true ↔
  ∃ ds, s = String "#" (string_of_list_ascii ds) ∧
        forallb is_hex_digit ds = true ∧ (length ds = 3 ∨ length ds = 6).
Proof.
  unfold spec_is_hex_color. destruct s as [| h r].
  { split; [done |]. by intros (? & ? & _). }
  destruct (Ascii.eqb_spec h "#") as [-> | Hh].
  - split.
    + intros [Hhex Hlen]%andb_true_iff. exists (list_ascii_of_string r).
      rewrite string_of_list_ascii_of_string. split; [done |]. split; [done |].
      apply orb_true_iff in Hlen as [?%Nat.eqb_eq | ?%Nat.eqb_eq]; auto.
    + intros (ds & [= ->] & Hhex & Hlen).
      rewrite list_ascii_of_string_of_list_ascii, Hhex. simpl.
      apply orb_true_iff. destruct Hlen as [-> | ->]; auto.
  - split.
    + by destruct h as [[] [] [] [] [] [] [] []].
    + intros (ds & [= -> _] & _). done.
Qed.

Lemma hex_color_match_forms s :
  hex_color_match s = true ↔
  spec_is_hex_color s = true ∨
  ∃ s0, s = s0 +:+ newline ∧ spec_is_hex_color s0 = true.
Proof.
  split.
  - intros Hm.
    assert (Hform : ∃ ds r, s = String "#" (string_of_list_ascii ds +:+ r) ∧
                            forallb is_hex_digit ds = true ∧
                            (length ds = 3 ∨ length ds = 6) ∧
                            (r = "" ∨ r = newline)).
    { unfold hex_color_match in Hm. destruct s as [| h r]; [done |].
      destruct (Ascii.eqb_spec h "#") as [-> | Hh];
        [| by destruct h as [[] [] [] [] [] [] [] []]].
      destruct (hex_run 3 r) as [r1 |] eqn:H1; [| done].
      apply hex_run_spec in H1 as (ds1 & Hl1 & Hh1 & ->).
      assert (Hone : at_dollar r1 = true →
                ∃ ds r0, String "#" (string_of_list_ascii ds1 +:+ r1)
                         = String "#" (string_of_list_ascii ds +:+ r0) ∧
                  forallb is_hex_digit ds = true ∧
                  (length ds = 3 ∨ length ds = 6) ∧ (r0 = "" ∨ r0 = newline)).
      { intros Hd%at_dollar_spec. exists ds1, r1. auto. }
      destruct (hex_run 3 r1) as [r2 |] eqn:H2; [| auto].
      apply orb_true_iff in Hm as [Hd%at_dollar_spec | Hd]; [| auto].
      apply hex_run_spec in H2 as (ds2 & Hl2 & Hh2 & ->).
      exists (ds1 ++ ds2), r2.
      rewrite forallb_app, Hh1, Hh2, length_app, Hl1, Hl2.
      split; [| auto].
      f_equal. clear. induction ds1 as [| d ds1 IH]; [done |].
      simpl. change (String d (string_of_list_ascii ds1 +:+ string_of_list_ascii ds2 +:+ r2)
                     = String d (string_of_list_ascii (ds1 ++ ds2) +:+ r2)).
      by rewrite IH. }
    destruct Hform as (ds & r & -> & Hhex & Hlen & [-> | ->]).
    + left. apply spec_is_hex_color_spec. exists ds.
      by rewrite string_app_nil_r.
    + right. exists (String "#" (string_of_list_ascii ds)). split; [done |].
      apply spec_is_hex_color_spec. eauto.
  - intros [Hs | (s0 & -> & Hs)]; [by apply spec_color_matches |].
    apply spec_is_hex_color_spec in Hs as (ds & -> & Hhex & Hlen).
    unfold hex_color_match.
    change (String "#" (string_of_list_ascii ds) +:+ newline)
      with (String "#" (string_of_list_ascii ds +:+ newline)).
    destruct ds as [| c1 [| c2 [| c3 [| c4 [| c5 [| c6 [| c7 ds]]]]]]];
      simpl in Hlen; try lia;
      cbn [forallb] in Hhex;
      repeat (let Hc := fresh "Hc" in
              apply andb_true_iff in Hhex as [Hc Hhex]);
      cbv beta iota zeta delta [String.append string_of_list_ascii newline];
      cbn [hex_run];
      repeat match goal with
             | Hc : is_hex_digit _ = true |- _ => rewrite Hc; clear Hc
             end;
      reflexivity.
Qed.

(** What [vol.Match] lets through: the colour strings, and the colour
    strings followed by one newline. *)
Lemma hex_color_match_spec s :
  hex_color_match s = true ↔
  spec_is_hex_color s = true ∨
  ∃ s0, s = s0 +:+ newline ∧ spec_is_hex_color s0 = true.
Proof. exact (hex_color_match_forms s). Qed.

Example hex_color_match_newline : hex_color_match ("#fff" +:+ newline) = true.
Proof. reflexivity. Qed.

(** *** Requests the schemas refuse *)




Section RefusedRequests.
Context `{Platform}.



End RefusedRequests.



(** What that request does: it is accepted, and 100 is written. *)
Example fractional_brightness_is_written :
  let r := @call_service sample_platform sample_world
             (Call SERVICE_BRIGHTNESS
                (<[ATTR_ENTITY_ID := Value (VList ["dreamscreen.den"])]>
                   (<[CONF_BRIGHTNESS := Float 1009 10]> ∅))) in
  r.2 = Ok () ∧
  trace r.1 = [Setattr 0 "brightness" (VInt 100); UpdateState 0].
Proof. split; vm_compute; reflexivity. Qed.

(** A colour with a final newline passes the schema; the handler runs, and
    it is the setter of the library that refuses the string. *)
Example color_with_final_newline_reaches_setter :
  let r := @call_service sample_platform sample_world
             (Call SERVICE_AMBIENT_COLOR
                (<[ATTR_ENTITY_ID := Value (VList ["dreamscreen.den"])]>
                   (<[CONF_AMBIENT_COLOR := Value (VStr ("#fff" +:+ newline))]>
                      ∅))) in
  r.2 = Raise TypeError ∧ trace r.1 = [].
Proof. split; vm_compute; reflexivity. Qed.

(** ** Further properties of the code *)

(** *** The snapshot *)

Lemma state_attributes_unfold self :
  state_attributes self =
  (let d := device self in
   group_name ← getattr d "group_name";
   group_number ← getattr d "group_number";
   mode ← getattr d "mode";
   brightness ← getattr d "brightness";
   color ← getattr d "ambient_color";
   hex ← hex_method color;
   scene ← getattr d "ambient_scene";
   let base : gmap string value :=
     <["ambient_scene" := scene]>
       (<["ambient_color" := VStr ("#" +:+ str_upper hex)]>
         (<["brightness" := brightness]>
           (<["device_mode" := mode]>
             (<["group_number" := group_number]>
               (<["group_name" := group_name]> ∅))))) in
   if is_hdmi_device d then
     hdmi_input ← getattr d "hdmi_input";
     name1 ← getattr d "hdmi_input_1_name";
     name2 ← getattr d "hdmi_input_2_name";
     name3 ← getattr d "hdmi_input_3_name";
     channels ← getattr d "hdmi_active_channels";
     Ok (<["hdmi_active_channels" := channels]>
          (<["hdmi_input_3_name" := name3]>
            (<["hdmi_input_2_name" := name2]>
              (<["hdmi_input_1_name" := name1]>
                (<["hdmi_input" := hdmi_input]>
                  (<["selected_hdmi" :=
                       selected_name hdmi_input name1 name2 name3]> base))))))
   else Ok base).
Proof.
  unfold state_attributes, getattr. cbv zeta.
  destruct (attrs (device self) !! "group_name");
    cbn [mbind result_bind]; [| reflexivity].
  destruct (attrs (device self) !! "group_number");
    cbn [mbind result_bind]; [| reflexivity].
  destruct (attrs (device self) !! "mode");
    cbn [mbind result_bind]; [| reflexivity].
  destruct (attrs (device self) !! "brightness");
    cbn [mbind result_bind]; [| reflexivity].
  destruct (attrs (device self) !! "ambient_color") as [color |];
    cbn [mbind result_bind]; [| reflexivity].
  destruct (hex_method color); cbn [mbind result_bind]; [| reflexivity].
  destruct (attrs (device self) !! "ambient_scene");
    cbn [mbind result_bind]; [| reflexivity].
  destruct (is_hdmi_device (device self)); [| reflexivity].
  destruct (attrs (device self) !! "hdmi_input") as [h |];
    cbn [mbind result_bind]; [| reflexivity].
  unfold selected_name.
  destruct (attrs (device self) !! "hdmi_input_1_name") as [n1 |];
    destruct (attrs (device self) !! "hdmi_input_2_name") as [n2 |];
    destruct (attrs (device self) !! "hdmi_input_3_name") as [n3 |];
    destruct (py_eq_int h 0), (py_eq_int h 1), (py_eq_int h 2);
    cbn [mbind result_bind]; reflexivity.
Qed.

Lemma state_attributes_Ok_inv self a :
  state_attributes self = Ok a →
  ∃ gname gnum mode bri b scene,
    attrs (device self) !! "group_name" = Some gname ∧
    attrs (device self) !! "group_number" = Some gnum ∧
    attrs (device self) !! "mode" = Some mode ∧
    attrs (device self) !! "brightness" = Some bri ∧
    attrs (device self) !! "ambient_color" = Some (VBytes b) ∧
    attrs (device self) !! "ambient_scene" = Some scene ∧
    let base : gmap string value :=
      <["ambient_scene" := scene]>
        (<["ambient_color" := VStr ("#" +:+ str_upper (bytes_hex b))]>
          (<["brightness" := bri]>
            (<["device_mode" := mode]>
              (<["group_number" := gnum]>
                (<["group_name" := gname]> ∅))))) in
    if is_hdmi_device (device self) then
      ∃ h n1 n2 n3 ch,
        attrs (device self) !! "hdmi_input" = Some h ∧
        attrs (device self) !! "hdmi_input_1_name" = Some n1 ∧
        attrs (device self) !! "hdmi_input_2_name" = Some n2 ∧
        attrs (device self) !! "hdmi_input_3_name" = Some n3 ∧
        attrs (device self) !! "hdmi_active_channels" = Some ch ∧
        a = <["hdmi_active_channels" := ch]>
              (<["hdmi_input_3_name" := n3]>
                (<["hdmi_input_2_name" := n2]>
                  (<["hdmi_input_1_name" := n1]>
                    (<["hdmi_input" := h]>
                      (<["selected_hdmi" := selected_name h n1 n2 n3]> base)))))
    else a = base.
Proof.
  rewrite state_attributes_unfold. cbv zeta. intros E.
  apply bind_Ok in E as (gname & H1%getattr_Ok & E).
  apply bind_Ok in E as (gnum & H2%getattr_Ok & E).
  apply bind_Ok in E as (mode & H3%getattr_Ok & E).
  apply bind_Ok in E as (bri & H4%getattr_Ok & E).
  apply bind_Ok in E as (color & H5%getattr_Ok & E).
  apply bind_Ok in E as (hex & H6 & E).
  apply bind_Ok in E as (scene & H7%getattr_Ok & E).
  destruct color as [| | | b |]; try discriminate H6.
  injection H6 as <-.
  exists gname, gnum, mode, bri, b, scene.
  do 6 (split; [done |]).
  destruct (is_hdmi_device (device self)).
  - apply bind_Ok in E as (h & Hh%getattr_Ok & E).
    apply bind_Ok in E as (n1 & Hn1%getattr_Ok & E).
    apply bind_Ok in E as (n2 & Hn2%getattr_Ok & E).
    apply bind_Ok in E as (n3 & Hn3%getattr_Ok & E).
    apply bind_Ok in E as (ch & Hch%getattr_Ok & E).
    injection E as <-. exists h, n1, n2, n3, ch. done.
  - by injection E as <-.
Qed.

Ltac pick_eq :=
  solve [repeat first [reflexivity | left; reflexivity | right]].

Lemma elem_of_keys_cases (k : string) (ks : list string) (P : Prop) :
  k ∈ ks → Forall (λ k', k = k' → P) ks → P.
Proof.
  intros Hk Hall. rewrite Forall_forall in Hall. by apply (Hall k).
Qed.

(** X1: the snapshot has the six base keys, for a handle of an HDMI class
    the six HDMI keys as well, and no other key. *)
Theorem snapshot_keys :
  ∀ (self : DreamScreenEntity) (a : gmap string value),
    state_attributes self = Ok a →
    ∀ k, is_Some (a !! k) ↔
         k ∈ BASE_KEYS ∨ (is_hdmi_device (device self) = true ∧ k ∈ HDMI_KEYS).
Proof.
  intros self a E k.
  apply state_attributes_Ok_inv in E
    as (gname & gnum & mode & bri & b & scene & _ & _ & _ & _ & _ & _ & E).
  cbv zeta in E. unfold BASE_KEYS, HDMI_KEYS.
  rewrite !elem_of_cons, !elem_of_nil.
  destruct (is_hdmi_device (device self)).
  - destruct E as (h & n1 & n2 & n3 & ch & _ & _ & _ & _ & _ & ->).
    rewrite !lookup_insert_is_Some', lookup_empty, is_Some_alt. split.
    + intros H.
      repeat (destruct H as [<- | H];
              [(left; pick_eq) || (right; split; [done | pick_eq]) |]).
      done.
    + intros [H | [_ H]];
        repeat (destruct H as [-> | H]; [pick_eq |]); done.
  - subst a.
    rewrite !lookup_insert_is_Some', lookup_empty, is_Some_alt. split.
    + intros H. repeat (destruct H as [<- | H]; [left; pick_eq |]). done.
    + intros [H | [? _]]; [| done].
      repeat (destruct H as [-> | H]; [pick_eq |]). done.
Qed.

Lemma snapshot_keys_witness :
  ∃ a,
    state_attributes (Entity (sample_hd "Den" 1) "dreamscreen.den" (VStr "Den"))
      = Ok a ∧
    is_Some (a !! "device_mode") ∧ ¬ is_Some (a !! "mode") ∧
    ¬ is_Some (a !! "name").
Proof.
  set (self := Entity _ _ _).
  destruct (is_Ok_true (state_attributes self)) as [a E];
    [vm_compute; reflexivity |].
  exists a. split; [exact E |].
  pose proof (snapshot_keys self a E) as Hk.
  split; [| split].
  - apply Hk. left. unfold BASE_KEYS.
    repeat first [apply list_elem_of_here | apply list_elem_of_further].
  - intros [Hb | [_ Hb]]%Hk; unfold BASE_KEYS, HDMI_KEYS in Hb;
      repeat (apply elem_of_cons in Hb as [Hb' | Hb]; [discriminate Hb' |]);
      by apply elem_of_nil in Hb.
  - intros [Hb | [_ Hb]]%Hk; unfold BASE_KEYS, HDMI_KEYS in Hb;
      repeat (apply elem_of_cons in Hb as [Hb' | Hb]; [discriminate Hb' |]);
      by apply elem_of_nil in Hb.
Defined.

Lemma setattr_Ok_inv d a v d' :
  setattr d a v = Ok d' →
  ∃ v', stored_value a v = Ok v' ∧
        d' = Device (class_of d) (<[a := v']> (attrs d)).
Proof.
  unfold setattr. intros E. apply bind_Ok in E as (v' & Hv & E).
  injection E as <-. eauto.
Qed.

Lemma stored_value_int a z :
  a ≠ "ambient_color" → stored_value a (VInt z) = Ok (VInt z).
Proof.
  intros Ha. unfold stored_value.
  destruct (String.eqb_spec a "ambient_color"); [done |].
  by destruct (bool_decide _).
Qed.

Lemma stored_value_plain a v v' :
  a ≠ "ambient_color" → stored_value a v = Ok v' → v' = v.
Proof.
  intros Ha. unfold stored_value.
  destruct (String.eqb_spec a "ambient_color"); [done |].
  destruct (bool_decide _); [| congruence].
  destruct v; congruence.
Qed.

Ltac in_list :=
  solve [repeat first [apply list_elem_of_here | apply list_elem_of_further]].

(** X2: the snapshot can be read exactly when the handle has the six
    attributes it reads, the colour being [bytes], and, for an HDMI class,
    the five HDMI attributes; otherwise the read raises [AttributeError],
    and nothing else. *)
Theorem snapshot_readable_iff :
  ∀ self : DreamScreenEntity,
    ((∃ a, state_attributes self = Ok a) ↔
     has_attrs (device self) BASE_ATTRIBUTES ∧
     (∃ b, attrs (device self) !! "ambient_color" = Some (VBytes b)) ∧
     (is_hdmi_device (device self) = true →
      has_attrs (device self) HDMI_ATTRIBUTES)) ∧
    (∀ e, state_attributes self = Raise e → e = AttributeError).
Proof.
  intros self. split; [split |].
  - intros [a E].
    apply state_attributes_Ok_inv in E
      as (gname & gnum & mode & bri & b & scene & H1 & H2 & H3 & H4 & H5 & H6 & E).
    cbv zeta in E. split; [| split; [eauto |]].
    + intros k Hk. unfold BASE_ATTRIBUTES in Hk.
      repeat (apply elem_of_cons in Hk as [-> | Hk]; [eauto |]).
      by apply elem_of_nil in Hk.
    + intros Hh. rewrite Hh in E.
      destruct E as (h & n1 & n2 & n3 & ch & G1 & G2 & G3 & G4 & G5 & _).
      intros k Hk. unfold HDMI_ATTRIBUTES in Hk.
      repeat (apply elem_of_cons in Hk as [-> | Hk]; [eauto |]).
      by apply elem_of_nil in Hk.
  - intros (Hb & [b Hc] & Hh).
    destruct (Hb "group_name") as [v1 H1]; [unfold BASE_ATTRIBUTES; in_list |].
    destruct (Hb "group_number") as [v2 H2]; [unfold BASE_ATTRIBUTES; in_list |].
    destruct (Hb "mode") as [v3 H3]; [unfold BASE_ATTRIBUTES; in_list |].
    destruct (Hb "brightness") as [v4 H4]; [unfold BASE_ATTRIBUTES; in_list |].
    destruct (Hb "ambient_scene") as [v6 H6]; [unfold BASE_ATTRIBUTES; in_list |].
    rewrite state_attributes_unfold. unfold getattr. cbv zeta.
    rewrite H1, H2, H3, H4, Hc, H6. cbn [mbind result_bind hex_method].
    destruct (is_hdmi_device (device self)); [| eauto].
    specialize (Hh eq_refl).
    destruct (Hh "hdmi_input") as [h G1]; [unfold HDMI_ATTRIBUTES; in_list |].
    destruct (Hh "hdmi_input_1_name") as [n1 G2]; [unfold HDMI_ATTRIBUTES; in_list |].
    destruct (Hh "hdmi_input_2_name") as [n2 G3]; [unfold HDMI_ATTRIBUTES; in_list |].
    destruct (Hh "hdmi_input_3_name") as [n3 G4]; [unfold HDMI_ATTRIBUTES; in_list |].
    destruct (Hh "hdmi_active_channels") as [ch G5]; [unfold HDMI_ATTRIBUTES; in_list |].
    rewrite G1, G2, G3, G4, G5. cbn [mbind result_bind]. eauto.
  - intros e. rewrite state_attributes_unfold. unfold getattr. cbv zeta.
    repeat (match goal with
            | |- context [attrs (device self) !! ?k ] =>
                destruct (attrs (device self) !! k) as [? |];
                cbn [mbind result_bind]; [| by intros [= <-]]
            | |- context [hex_method ?c] =>
                destruct c; cbn [mbind result_bind hex_method];
                try by intros [= <-]
            | |- context [is_hdmi_device ?d] => destruct (is_hdmi_device d)
            end); discriminate.
Qed.

Example snapshot_unreadable_with_str_color :
  state_attributes
    (Entity (Device OtherDevice (<["ambient_color" := VStr "#FF0000"]> (sample_attrs "Den")))
            "dreamscreen.den" (VStr "Den"))
  = Raise AttributeError.
Proof. vm_compute. reflexivity. Qed.

Ltac push_insert k :=
  repeat (rewrite (insert_insert_ne _ k) by done); rewrite insert_insert_eq.

Lemma state_attributes_written self a v :
  state_attributes (written a v self) =
  state_attributes (with_device self
    (Device (class_of (device self)) (<[a := v]> (attrs (device self))))).
Proof. reflexivity. Qed.

(** X3: after [setattr] of [mode], [brightness] or [ambient_scene] the
    snapshot is the one before with the key of that attribute ([device_mode]
    for [mode]) holding the new value; every other key is as it was. *)
Theorem snapshot_after_write :
  ∀ (self : DreamScreenEntity) (a0 : gmap string value) (a : string)
    (v : value) (d' : device_handle),
    a ∈ ["mode"; "brightness"; "ambient_scene"] →
    state_attributes self = Ok a0 →
    setattr (device self) a v = Ok d' →
    state_attributes (with_device self d') = Ok (<[snapshot_key a := v]> a0).
Proof.
  intros self a0 a v d' Ha E Hset.
  assert (Hne : a ≠ "ambient_color").
  { repeat (apply elem_of_cons in Ha as [-> | Ha]; [done |]).
    by apply elem_of_nil in Ha. }
  apply setattr_Ok_inv in Hset as (v' & Hv & ->).
  apply stored_value_plain in Hv as ->; [| done].
  apply state_attributes_Ok_inv in E
    as (gname & gnum & mode & bri & b & scene & H1 & H2 & H3 & H4 & H5 & H6 & E).
  cbv zeta in E.
  rewrite state_attributes_unfold. unfold getattr. cbv zeta.
  cbn [device with_device attrs class_of].
  replace (is_hdmi_device (Device (class_of (device self))
                                  (<[a := v]> (attrs (device self)))))
    with (is_hdmi_device (device self)) by reflexivity.
  repeat (apply elem_of_cons in Ha as [-> | Ha]);
    [| | | by apply elem_of_nil in Ha];
    rewrite ?lookup_insert_eq, ?lookup_insert_ne by done;
    rewrite ?H1, ?H2, ?H3, ?H4, ?H5, ?H6;
    cbn [mbind result_bind hex_method];
    (destruct (is_hdmi_device (device self));
     [ destruct E as (h & n1 & n2 & n3 & ch & G1 & G2 & G3 & G4 & G5 & ->);
       rewrite ?lookup_insert_ne by done;
       rewrite G1, G2, G3, G4, G5; cbn [mbind result_bind]
     | subst a0 ]);
    apply (f_equal Ok); symmetry;
    unfold snapshot_key; cbn [String.eqb Ascii.eqb Bool.eqb];
    first [ by push_insert "device_mode"
          | by push_insert "brightness"
          | by push_insert "ambient_scene" ].
Qed.

Lemma snapshot_after_write_witness :
  ∃ a0,
    state_attributes (Entity (sample_hd "Den" 1) "dreamscreen.den" (VStr "Den"))
      = Ok a0 ∧
    state_attributes
      (Entity (Device DreamScreenHD
                 (<["brightness" := VInt 15]> (sample_hdmi_attrs "Den" 1)))
              "dreamscreen.den" (VStr "Den"))
      = Ok (<["brightness" := VInt 15]> a0).
Proof.
  set (self := Entity (sample_hd "Den" 1) _ _).
  destruct (is_Ok_true (state_attributes self)) as [a0 E];
    [vm_compute; reflexivity |].
  exists a0. split; [exact E |].
  apply (snapshot_after_write self a0 "brightness" (VInt 15) _
           ltac:(in_list) E eq_refl).
Defined.

(** X4: after [setattr] of [hdmi_input] to 0, 1 or 2 on a handle of an HDMI
    class the snapshot is the one before with [hdmi_input] holding the index
    and [selected_hdmi] holding the name of input 1, 2 or 3. *)
Theorem snapshot_after_hdmi_source :
  ∀ (self : DreamScreenEntity) (a0 : gmap string value) (k : Z)
    (d' : device_handle),
    is_hdmi_device (device self) = true →
    (0 ≤ k ≤ 2)%Z →
    state_attributes self = Ok a0 →
    setattr (device self) "hdmi_input" (VInt k) = Ok d' →
    ∃ n,
      attrs (device self) !! hdmi_name_attribute k = Some n ∧
      state_attributes (with_device self d')
        = Ok (<["hdmi_input" := VInt k]> (<["selected_hdmi" := n]> a0)).
Proof.
  intros self a0 k d' Hh Hk E Hset.
  apply setattr_Ok_inv in Hset as (v' & Hv & ->).
  apply stored_value_plain in Hv as ->; [| done].
  apply state_attributes_Ok_inv in E
    as (gname & gnum & mode & bri & b & scene & H1 & H2 & H3 & H4 & H5 & H6 & E).
  cbv zeta in E. rewrite Hh in E.
  destruct E as (h & n1 & n2 & n3 & ch & G1 & G2 & G3 & G4 & G5 & ->).
  exists (selected_name (VInt k) n1 n2 n3). split.
  - unfold hdmi_name_attribute, selected_name, py_eq_int.
    destruct (Z.eqb_spec k 0); [done |].
    destruct (Z.eqb_spec k 1); [done |].
    destruct (Z.eqb_spec k 2); [done | lia].
  - rewrite state_attributes_unfold. unfold getattr. cbv zeta.
    cbn [device with_device attrs class_of].
    replace (is_hdmi_device (Device (class_of (device self))
               (<["hdmi_input" := VInt k]> (attrs (device self)))))
      with true by (symmetry; exact Hh).
    rewrite lookup_insert_eq, !lookup_insert_ne by done.
    rewrite H1, H2, H3, H4, H5, H6, G2, G3, G4, G5.
    cbn [mbind result_bind hex_method]. apply (f_equal Ok). symmetry.
    rewrite (insert_insert_ne _ "selected_hdmi") by done.
    rewrite (insert_insert_ne _ "selected_hdmi") by done.
    rewrite (insert_insert_ne _ "selected_hdmi") by done.
    rewrite (insert_insert_ne _ "selected_hdmi") by done.
    rewrite (insert_insert_ne _ "selected_hdmi") by done.
    rewrite insert_insert_eq.
    by push_insert "hdmi_input".
Qed.

Lemma snapshot_after_hdmi_source_witness :
  ∃ a0,
    state_attributes (Entity (sample_hd "Den" 0) "dreamscreen.den" (VStr "Den"))
      = Ok a0 ∧
    state_attributes
      (Entity (Device DreamScreenHD
                 (<["hdmi_input" := VInt 1]> (sample_hdmi_attrs "Den" 0)))
              "dreamscreen.den" (VStr "Den"))
      = Ok (<["hdmi_input" := VInt 1]> (<["selected_hdmi" := VStr "Console"]> a0)).
Proof.
  set (self := Entity (sample_hd "Den" 0) _ _).
  destruct (is_Ok_true (state_attributes self)) as [a0 E];
    [vm_compute; reflexivity |].
  exists a0. split; [exact E |].
  destruct (snapshot_after_hdmi_source self a0 1 _ eq_refl ltac:(lia) E eq_refl)
    as (n & Hn & Hs).
  replace n with (VStr "Console") in Hs; [exact Hs |].
  assert (Hc : attrs (device self) !! hdmi_name_attribute 1 = Some (VStr "Console"))
    by reflexivity.
  congruence.
Defined.

(** X5: on a handle that is of neither HDMI class a [setattr] of
    [hdmi_input] does not show: the snapshot, or the error of reading it,
    and the state are as before. *)
Theorem hdmi_write_invisible_without_hdmi_class :
  ∀ (self : DreamScreenEntity) (v : value) (d' : device_handle),
    is_hdmi_device (device self) = false →
    setattr (device self) "hdmi_input" v = Ok d' →
    state_attributes (with_device self d') = state_attributes self ∧
    state (with_device self d') = state self.
Proof.
  intros self v d' Hh Hset.
  apply setattr_Ok_inv in Hset as (v' & Hv & ->).
  split.
  - rewrite !state_attributes_unfold. unfold getattr. cbv zeta.
    cbn [device with_device attrs class_of].
    replace (is_hdmi_device (Device (class_of (device self))
               (<["hdmi_input" := v']> (attrs (device self)))))
      with false by (symmetry; exact Hh).
    rewrite Hh. by rewrite !lookup_insert_ne by done.
  - unfold state, getattr. cbn [device with_device attrs].
    by rewrite lookup_insert_ne by done.
Qed.

Lemma hdmi_write_invisible_without_hdmi_class_witness :
  state_attributes
    (Entity (Device OtherDevice (<["hdmi_input" := VInt 2]> (sample_attrs "Den")))
            "dreamscreen.den" (VStr "Den"))
  = state_attributes
      (Entity (sample_sidekick "Den") "dreamscreen.den" (VStr "Den")).
Proof.
  exact (proj1 (hdmi_write_invisible_without_hdmi_class
                  (Entity (sample_sidekick "Den") "dreamscreen.den" (VStr "Den"))
                  (VInt 2) _ eq_refl eq_refl)).
Defined.

(** X6: the on/off state depends on [mode] alone: the [setattr] of every
    service of the table but [set_mode] leaves the state as it was. *)
Theorem state_kept_by_other_services :
  ∀ (svc : string) (sd : service_definition) (self : DreamScreenEntity)
    (v : value) (d' : device_handle),
    dict_get svc SERVICE_TO_ATTRIBUTE = Some sd →
    svc ≠ SERVICE_MODE →
    setattr (device self) (attribute sd) v = Ok d' →
    state (with_device self d') = state self.
Proof.
  intros svc sd self v d' Hsd Hsvc Hset.
  apply setattr_Ok_inv in Hset as (v' & _ & ->).
  assert (Hne : attribute sd ≠ "mode").
  { apply table_cases in Hsd
      as [[Hn ->] | [[Hn ->] | [[Hn ->] | [[Hn ->] | [Hn ->]]]]]; done. }
  unfold state, getattr. cbn [device with_device attrs].
  by rewrite lookup_insert_ne.
Qed.

Lemma state_kept_by_other_services_witness :
  state (Entity (Device DreamScreenHD
                   (<["brightness" := VInt 0]> (sample_hdmi_attrs "Den" 0)))
                "dreamscreen.den" (VStr "Den"))
  = state (Entity (sample_hd "Den" 0) "dreamscreen.den" (VStr "Den")).
Proof.
  exact (state_kept_by_other_services SERVICE_BRIGHTNESS
           (ServiceDefinition "brightness" SERVICE_BRIGHTNESS_SCHEMA CONF_BRIGHTNESS)
           (Entity (sample_hd "Den" 0) "dreamscreen.den" (VStr "Den"))
           (VInt 0) _ eq_refl ltac:(discriminate) eq_refl).
Defined.

(** *** The colour of the snapshot *)

Lemma byte_hex_upper (b : byte) :
  ∃ c1 c2, str_upper (byte_hex b) = String c1 (String c2 "") ∧
           is_hex_digit c1 = true ∧ is_hex_digit c2 = true.
Proof.
  destruct b; (do 2 eexists; split; [reflexivity | split; reflexivity]).
Qed.

Lemma hex_digit_not_newline (c : ascii) :
  is_hex_digit c = true → Ascii.eqb c "010" = false.
Proof.
  intros Hc. destruct c as [[] [] [] [] [] [] [] []]; try reflexivity.
  vm_compute in Hc. discriminate Hc.
Qed.

Lemma app_two_chars (c1 c2 : ascii) (s : string) :
  String c1 (String c2 "") +:+ s = String c1 (String c2 s).
Proof. reflexivity. Qed.

(** The colour string of the snapshot, ["#" + bytes.hex().upper()], passes
    the pattern of [set_ambient_color] exactly when the colour has three
    bytes. *)
Lemma formatted_color_matches (b : list byte) :
  hex_color_match ("#" +:+ str_upper (bytes_hex b)) = true ↔ length b = 3.
Proof.
  change ("#" +:+ str_upper (bytes_hex b))
    with (String "#" (str_upper (bytes_hex b))).
  destruct b as [| b1 [| b2 [| b3 [| b4 rest]]]]; cbn [bytes_hex foldr length];
    rewrite ?str_upper_app;
    repeat match goal with
           | |- context [str_upper (byte_hex ?x)] =>
               let c1 := fresh "c" in
               let c2 := fresh "c" in
               let H1 := fresh "Hc" in
               let H2 := fresh "Hc" in
               destruct (byte_hex_upper x) as (c1 & c2 & -> & H1 & H2)
           end;
    rewrite ?app_two_chars; cbn [str_upper hex_color_match hex_run];
    repeat match goal with
           | H : is_hex_digit ?c = true |- context [is_hex_digit ?c] =>
               rewrite H
           end;
    cbn [at_dollar orb].
  - split; [discriminate | lia].
  - split; [discriminate | lia].
  - rewrite (hex_digit_not_newline c2) by done. split; [discriminate | lia].
  - done.
  - split; [discriminate | lia].
Qed.

(** X7: the [ambient_color] of a snapshot is ["#"] and the upper-case hex of
    the device's colour bytes, and it is a string the [set_ambient_color]
    schema accepts exactly when the device's colour has three bytes. *)
Theorem snapshot_color_matches_pattern :
  ∀ (self : DreamScreenEntity) (a : gmap string value),
    state_attributes self = Ok a →
    ∃ b c,
      attrs (device self) !! "ambient_color" = Some (VBytes b) ∧
      a !! "ambient_color" = Some (VStr c) ∧
      c = "#" +:+ str_upper (bytes_hex b) ∧
      (hex_color_match c = true ↔ length b = 3).
Proof.
  intros self a E.
  apply state_attributes_Ok_inv in E
    as (gname & gnum & mode & bri & b & scene & _ & _ & _ & _ & H5 & _ & E).
  cbv zeta in E. exists b, ("#" +:+ str_upper (bytes_hex b)).
  split; [exact H5 |]. split; [| split; [reflexivity | apply formatted_color_matches]].
  destruct (is_hdmi_device (device self)).
  - destruct E as (h & n1 & n2 & n3 & ch & _ & _ & _ & _ & _ & ->).
    do 7 (rewrite lookup_insert_ne by done). apply lookup_insert_eq.
  - subst a. rewrite lookup_insert_ne by done. apply lookup_insert_eq.
Qed.

Lemma snapshot_color_matches_pattern_witness :
  ∃ a c,
    state_attributes (Entity (sample_sidekick "Den") "dreamscreen.den" (VStr "Den"))
      = Ok a ∧
    a !! "ambient_color" = Some (VStr c) ∧ hex_color_match c = true.
Proof.
  set (self := Entity _ _ _).
  destruct (is_Ok_true (state_attributes self)) as [a E];
    [vm_compute; reflexivity |].
  destruct (snapshot_color_matches_pattern self a E)
    as (b & c & Hb & Hc & _ & Hm).
  exists a, c. split; [exact E |]. split; [exact Hc |].
  apply Hm.
  assert (Hb' : attrs (device self) !! "ambient_color"
                = Some (VBytes [xff; x00; x7f])) by reflexivity.
  rewrite Hb in Hb'. by injection Hb' as ->.
Defined.

(** *** What a call keeps *)

Lemma fmap_insert_same {B : Type} (f : DreamScreenEntity → B)
    (l : list DreamScreenEntity) i e e' :
  l !! i = Some e → f e' = f e → f <$> <[i := e']> l = f <$> l.
Proof.
  intros Hl Hf. rewrite list_fmap_insert, Hf.
  apply list_insert_id. by rewrite list_lookup_fmap, Hl.
Qed.

Lemma fmap_alter_same {B : Type} (f : DreamScreenEntity → B)
    (g : DreamScreenEntity → DreamScreenEntity) (l : list DreamScreenEntity) i :
  (∀ e, f (g e) = f e) → f <$> alter g i l = f <$> l.
Proof.
  intros Hf. rewrite (list_fmap_alter f g id).
  - by apply list_alter_id.
  - apply Forall_forall. intros e _. apply Hf.
Qed.

(** The loop, whatever its outcome: the adapters keep their identifier and
    their name, and the trace grows by writes of the one attribute and the
    one value, on targets. *)
Lemma write_targets_keeps a v : ∀ targets w updates w' r,
  write_targets a v targets w updates = (w', r) →
  entity_id <$> entities w' = entity_id <$> entities w ∧
  _name <$> entities w' = _name <$> entities w ∧
  ∃ written_targets,
    trace w' = trace w ++ ((λ i, Setattr i a v) <$> written_targets) ∧
    written_targets ⊆ targets.
Proof.
  induction targets as [| t rest IH]; intros w updates w' r E; simpl in E.
  - injection E as <- <-. repeat split. exists []. by rewrite app_nil_r.
  - destruct (entities w !! t) as [e |] eqn:He.
    + destruct (setattr (device e) a v) as [d |] eqn:Hd.
      * apply IH in E as (Hid & Hname & done & Htr & Hsub).
        cbn [entities trace] in *.
        rewrite (fmap_insert_same entity_id _ _ e) in Hid by done.
        rewrite (fmap_insert_same _name _ _ e) in Hname by done.
        repeat split; [done | done |].
        exists (t :: done). split.
        -- by rewrite Htr, <- app_assoc.
        -- intros x [-> | Hx]%elem_of_cons; [by left | right; by apply Hsub].
      * injection E as <- <-. repeat split. exists [].
        split; [by rewrite app_nil_r | by intros x ?%elem_of_nil].
    + apply IH in E as (Hid & Hname & done & Htr & Hsub).
      repeat split; [done | done |]. exists done. split; [done |].
      intros x Hx. right. by apply Hsub.
Qed.

Section CallProperties.
Context `{Platform}.

Lemma wait_keeps : ∀ updates w,
  entity_id <$> entities (wait updates w) = entity_id <$> entities w ∧
  _name <$> entities (wait updates w) = _name <$> entities w ∧
  trace (wait updates w) = trace w ++ (UpdateState <$> updates).
Proof.
  unfold wait. induction updates as [| u rest IH]; intros w; simpl.
  - by rewrite app_nil_r.
  - destruct (IH (World (alter update u (entities w))
                        (trace w ++ [UpdateState u]))) as (Hid & Hname & Htr).
    rewrite Hid, Hname, Htr. cbn [entities trace].
    rewrite !fmap_alter_same by done. by rewrite <- app_assoc.
Qed.

(** The handler, whatever its outcome. *)
Lemma handler_keeps w call w2 r :
  async_handle_dreamscreen_services w call = (w2, r) →
  entity_id <$> entities w2 = entity_id <$> entities w ∧
  _name <$> entities w2 = _name <$> entities w ∧
  ∃ events,
    trace w2 = trace w ++ events ∧
    ∀ i a v, Setattr i a v ∈ events →
      ∃ sd, dict_get (service call) SERVICE_TO_ATTRIBUTE = Some sd ∧
            a = attribute sd ∧ v = default VNone (data call !! param sd).
Proof.
  unfold async_handle_dreamscreen_services.
  destruct (dict_get (service call) SERVICE_TO_ATTRIBUTE) as [sd |] eqn:Hsd.
  2: { intros [= <- <-]. repeat split. exists []. rewrite app_nil_r.
       split; [done |]. by intros i a v ?%elem_of_nil. }
  cbv zeta.
  destruct (write_targets _ _ _ w []) as [w1 r1] eqn:Hw.
  apply write_targets_keeps in Hw as (Hid & Hname & done & Htr & _).
  assert (Hev : ∀ us i a v,
            Setattr i a v ∈ ((λ i, Setattr i (attribute sd)
                                (default VNone (data call !! param sd))) <$> done)
                            ++ (UpdateState <$> us) →
            ∃ sd', Some sd = Some sd' ∧ a = attribute sd' ∧
                   v = default VNone (data call !! param sd')).
  { intros us i a v [Hin | Hin]%elem_of_app.
    - apply list_elem_of_fmap in Hin as (j & [= -> -> ->] & _). eauto.
    - apply list_elem_of_fmap in Hin as (j & [=] & _). }
  destruct r1 as [updates | e].
  - destruct updates as [| u us].
    + intros [= <- <-]. repeat split; [done | done |].
      eexists. split; [exact Htr |]. intros i a v Hin.
      apply (Hev [] i a v). rewrite app_nil_r. exact Hin.
    + destruct (wait_keeps (u :: us) w1) as (Hid2 & Hname2 & Htr2).
      rewrite Htr, <- app_assoc in Htr2.
      intros [= <- <-].
      split; [exact (eq_trans Hid2 Hid) |].
      split; [exact (eq_trans Hname2 Hname) |].
      eexists. split; [exact Htr2 |]. apply Hev.
  - intros [= <- <-]. repeat split; [done | done |].
    eexists. split; [exact Htr |]. intros i a v Hin.
    apply (Hev [] i a v). rewrite app_nil_r. exact Hin.
Qed.

End CallProperties.

(** *** Requests *)

Section RequestProperties.
Context `{Platform}.

Lemma schema_validate_Ok_inv sch (dat : gmap string request_value)
    (out : gmap string value) :
  schema_validate sch dat = Ok out →
  validate_keys sch dat = Ok out ∧ ∀ k, is_Some (dat !! k) → k ∈ sch.*1.
Proof.
  unfold schema_validate.
  destruct (validate_keys sch dat) as [out' |]; [| discriminate].
  cbn [mbind result_bind].
  destruct (forallb _ _) eqn:Hall; [| discriminate].
  intros E. split; [exact E |].
  intros k [x Hk]. rewrite forallb_forall in Hall.
  apply (bool_decide_eq_true_1 (k ∈ sch.*1)), Hall.
  apply list_elem_of_In, list_elem_of_fmap.
  exists (k, x). split; [done |]. by apply elem_of_map_to_list.
Qed.

Lemma validate_keys_two_inv p f (dat : gmap string request_value)
    (out : gmap string value) :
  validate_keys [(ATTR_ENTITY_ID, entity_ids); (p, f)] dat = Ok out →
  ∃ raw ids v vv,
    dat !! ATTR_ENTITY_ID = Some raw ∧ cv_entity_ids raw = Ok ids ∧
    dat !! p = Some v ∧ validate f v = Ok vv ∧
    out = <[ATTR_ENTITY_ID := VList ids]> (<[p := vv]> ∅).
Proof.
  cbn [validate_keys].
  destruct (dat !! ATTR_ENTITY_ID) as [raw |] eqn:Hraw; [| discriminate].
  cbn [validate].
  destruct (cv_entity_ids raw) as [ids |] eqn:Hids; [| discriminate].
  cbn [mbind result_bind].
  destruct (dat !! p) as [v |] eqn:Hp; [| discriminate].
  destruct (validate f v) as [vv |] eqn:Hv; [| discriminate].
  cbn [mbind result_bind].
  intros [= <-]. exists raw, ids, v, vv. done.
Qed.

(** What the handler is given after validation: the parameter is there, it
    is the validated form of the one of the request, and it obeys the rule
    of the service. *)
Lemma validated_parameter svc sd (dat : gmap string request_value)
    (out : gmap string value) :
  dict_get svc SERVICE_TO_ATTRIBUTE = Some sd →
  schema_validate (schema sd) dat = Ok out →
  ∃ vv : value,
    out !! param sd = Some vv ∧ spec_parameter_valid svc vv = true.
Proof.
  intros Hsd [E _]%schema_validate_Ok_inv.
  apply table_cases in Hsd
    as [[-> ->] | [[-> ->] | [[-> ->] | [[-> ->] | [-> ->]]]]];
    apply validate_keys_two_inv in E
      as (raw & ids & v & vv & _ & _ & _ & Hv & ->);
    exists vv; (split; [by rewrite lookup_insert_ne, lookup_insert_eq |]).
  1-4: apply validate_range_Ok in Hv as (z & _ & Hz & ->);
       unfold spec_parameter_valid, int_in; simpl;
       apply andb_true_iff; split; apply Z.leb_le; lia.
  simpl in Hv. destruct v as [[| | s | |] | |]; try discriminate Hv.
  destruct (hex_color_match s) eqn:Hm; [| discriminate Hv].
  injection Hv as <-. exact Hm.
Qed.

(** X8: a call never adds, removes, reorders or renames an adapter,
    whatever its outcome: the identifiers and the names are those before
    the call, and the trace of effects only grows. *)
Theorem call_keeps_adapters :
  ∀ (w w2 : world) (call : ServiceRequest) (r : result unit),
    call_service w call = (w2, r) →
    entity_id <$> entities w2 = entity_id <$> entities w ∧
    name <$> entities w2 = name <$> entities w ∧
    trace w `prefix_of` trace w2.
Proof.
  intros w w2 call r. unfold call_service.
  destruct (dict_get (service call) registered_services) as [sch |];
    [| by intros [= <- <-]].
  destruct (schema_validate sch (data call)) as [out |];
    [| by intros [= <- <-]].
  intros (Hid & Hname & events & Htr & _)%handler_keeps.
  split; [done |]. split; [done |]. rewrite Htr. by apply prefix_app_r.
Qed.

(** X9: every attribute write of a call made through the platform is a
    write of the attribute the table names for the service, of a value that
    obeys the rule of the service: an integer of the range, or a string
    matching the colour pattern. *)
Theorem call_writes_only_valid_values :
  ∀ (w w2 : world) (call : ServiceRequest) (r : result unit),
    call_service w call = (w2, r) →
    ∃ events,
      trace w2 = trace w ++ events ∧
      ∀ i a v, Setattr i a v ∈ events →
        spec_parameter_valid (service call) v = true ∧
        ∃ sd, dict_get (service call) SERVICE_TO_ATTRIBUTE = Some sd ∧
              a = attribute sd.
Proof.
  intros w w2 call r. unfold call_service. rewrite registered_schema.
  destruct (dict_get (service call) SERVICE_TO_ATTRIBUTE) as [sd |] eqn:Hsd;
    cbn [fmap option_fmap option_map].
  2: { intros [= <- <-]. exists []. rewrite app_nil_r.
       split; [done |]. by intros i a v ?%elem_of_nil. }
  destruct (schema_validate (schema sd) (data call)) as [out |] eqn:Hval.
  2: { intros [= <- <-]. exists []. rewrite app_nil_r.
       split; [done |]. by intros i a v ?%elem_of_nil. }
  destruct (validated_parameter _ _ _ _ Hsd Hval) as (vv & Hvv & Hok).
  intros (_ & _ & events & Htr & Hev)%handler_keeps.
  exists events. split; [exact Htr |].
  intros i a v Hin. destruct (Hev i a v Hin) as (sd' & Hsd' & -> & ->).
  cbn [service data] in Hsd'. rewrite Hsd in Hsd'. injection Hsd' as <-.
  cbn [data]. rewrite Hvv. cbn [from_option id]. eauto.
Qed.

End RequestProperties.

Lemma call_keeps_adapters_witness :
  ∃ w2 r,
    @call_service sample_platform sample_world
      (Call SERVICE_BRIGHTNESS
            (<[ATTR_ENTITY_ID := Value (VList ["dreamscreen.loft"])]>
               (<[CONF_BRIGHTNESS := Value (VInt 40)]> ∅)))
      = (w2, r) ∧
    entity_id <$> entities w2 = ["dreamscreen.den"; "dreamscreen.loft"].
Proof.
  destruct (@call_service sample_platform sample_world _) as [w2 r] eqn:E.
  exists w2, r. split; [reflexivity |].
  exact (proj1 (@call_keeps_adapters sample_platform _ _ _ _ E)).
Defined.

Lemma call_writes_only_valid_values_witness :
  ∃ w2 r events,
    @call_service sample_platform_parsing sample_world
      (Call SERVICE_BRIGHTNESS
            (<[ATTR_ENTITY_ID := Value (VList ["dreamscreen.loft"])]>
               (<[CONF_BRIGHTNESS := Value (VStr "40")]> ∅)))
      = (w2, r) ∧
    trace w2 = trace sample_world ++ events ∧
    ∀ i a v, Setattr i a v ∈ events →
      @spec_parameter_valid sample_platform_parsing SERVICE_BRIGHTNESS v = true.
Proof.
  destruct (@call_service sample_platform_parsing sample_world _)
    as [w2 r] eqn:E.
  destruct (@call_writes_only_valid_values sample_platform_parsing _ _ _ _ E)
    as (events & Htr & Hev).
  exists w2, r, events. split; [reflexivity |]. split; [exact Htr |].
  intros i a v Hin. exact (proj1 (Hev i a v Hin)).
Defined.

Section RequestShape.
Context `{Platform}.





(** X12: a request to one of the four integer services whose parameter
    reads as an integer of the range succeeds, and what is written onto
    each target is that integer, not the value as given: one write per
    target, then one refresh per target. *)
Theorem coerced_integer_is_written :
  ∀ (w : world) (svc : string) (sd : service_definition)
    (raw v : request_value) (ids : list string) (z : Z),
    dict_get svc SERVICE_TO_ATTRIBUTE = Some sd →
    svc ≠ SERVICE_AMBIENT_COLOR →
    cv_entity_ids raw = Ok ids →
    as_int v = Some z →
    spec_parameter_valid svc v = true →
    let targets :=
      positions (λ e, bool_decide (entity_id e ∈ ids)) (entities w) 0 in
    ∃ w2,
      call_service w
        (Call svc (<[ATTR_ENTITY_ID := raw]> (<[param sd := v]> ∅)))
        = (w2, Ok ()) ∧
      trace w2 = trace w
                 ++ ((λ i, Setattr i (attribute sd) (VInt z)) <$> targets)
                 ++ (UpdateState <$> targets) ∧
      ∀ i, entities w2 !! i =
           if bool_decide (i ∈ targets)
           then (λ e, update (written (attribute sd) (VInt z) e))
                  <$> entities w !! i
           else entities w !! i.
Proof.
  intros w svc sd raw v ids z Hsd Hsvc Hids Hz Hok targets.
  assert (Hsch : ∃ lo hi,
            schema sd = [(ATTR_ENTITY_ID, entity_ids);
                         (param sd, IntRange lo hi)] ∧
            param sd ≠ ATTR_ENTITY_ID ∧ attribute sd ≠ "ambient_color" ∧
            int_in lo hi v = true).
  { revert Hok. pose proof Hsd as Hsd'. apply table_cases in Hsd'
      as [[-> ->] | [[-> ->] | [[-> ->] | [[-> ->] | [-> ->]]]]];
      try done; intros Hok; do 2 eexists;
      (split; [reflexivity | split; [done | split; [done | exact Hok]]]). }
  destruct Hsch as (lo & hi & Hshape & Hp & Ha & Hin).
  assert (Hval : validate (IntRange lo hi) v = Ok (VInt z)).
  { rewrite validate_range_unfold, Hz. unfold int_in in Hin.
    rewrite Hz in Hin. by rewrite Hin. }
  unfold call_service. cbn [service data].
  rewrite registered_schema, Hsd. cbn [fmap option_fmap option_map].
  rewrite Hshape.
  rewrite (schema_validate_request (param sd) _ raw ids v (VInt z))
    by done.
  set (validated := <[ATTR_ENTITY_ID := VList ids]> (<[param sd := VInt z]> ∅)).
  destruct (handler_spec w svc sd validated (VInt z) (VInt z))
    as (w2 & Hrun & Htr & Hes); [done | | by apply stored_value_int |].
  { unfold validated. by rewrite lookup_insert_ne, lookup_insert_eq. }
  assert (Ht : async_extract_from_service (entities w) validated = targets).
  { unfold async_extract_from_service, validated.
    by rewrite lookup_insert_eq. }
  rewrite Ht in Htr, Hes. by exists w2.
Qed.

End RequestShape.



Lemma coerced_integer_is_written_witness :
  ∃ w2,
    @call_service sample_platform_parsing sample_world
      (Call SERVICE_BRIGHTNESS
            (<[ATTR_ENTITY_ID := Value (VList ["dreamscreen.loft"])]>
               (<[CONF_BRIGHTNESS := Value (VStr "40")]> ∅)))
      = (w2, Ok ()) ∧
    trace w2 = [Setattr 1 "brightness" (VInt 40); UpdateState 1].
Proof.
  destruct (@coerced_integer_is_written sample_platform_parsing sample_world
              SERVICE_BRIGHTNESS
              (ServiceDefinition "brightness" SERVICE_BRIGHTNESS_SCHEMA
                                 CONF_BRIGHTNESS)
              (VList ["dreamscreen.loft"]) (VStr "40") ["dreamscreen.loft"] 40%Z
              eq_refl ltac:(discriminate) eq_refl eq_refl eq_refl)
    as (w2 & Hrun & Htr & _).
  exists w2. split; [exact Hrun | exact Htr].
Defined.

(** *** The setup loop *)

(** The loop of [ensure_unique_string] returns the first free string of the
    rounds it tests. *)
Lemma ensure_unique_loop_least (fuel : nat) p cur : ∀ (tries : nat) s,
  (1 ≤ tries)%nat →
  ensure_unique_loop fuel p cur tries (candidate p tries) = Some s →
  ∃ k : nat, (tries ≤ k)%nat ∧ s = candidate p k ∧ (s ∉ cur) ∧
             ∀ j : nat, (tries ≤ j < k)%nat → candidate p j ∈ cur.
Proof.
  induction fuel as [| fuel IH]; intros tries s Ht; simpl;
    case_bool_decide as Hin; try done.
  - intros [= <-]. exists tries. repeat split; [lia | done | lia].
  - intros E.
    replace (p +:+ "_" +:+ pretty (S tries)) with (candidate p (S tries)) in E.
    2: { unfold candidate. by replace (Nat.eqb (S tries) 1) with false
           by (symmetry; apply Nat.eqb_neq; lia). }
    apply IH in E as (k & Hk & -> & Hfree & Hleast); [| lia].
    exists k. repeat split; [lia | done |].
    intros j Hj. destruct (decide (j = tries)) as [-> | Hne]; [done |].
    apply Hleast. lia.
  - intros [= <-]. exists tries. repeat split; [lia | done | lia].
Qed.

Section SetupLoopProperties.
Context `{Platform}.

Lemma setup_loop_sequential devices : ∀ entities ids out,
  setup_loop devices entities ids = Ok out →
  entity_id <$> entities = ids →
  ∃ rest,
    out = entities ++ rest ∧ length rest = length devices ∧
    ∀ j e, rest !! j = Some e →
      ∃ n, devices !! j = Some (device e) ∧
           attrs (device e) !! "name" = Some n ∧ name e = n ∧
           generate_entity_id ENTITY_ID_FORMAT n
             (ids ++ (entity_id <$> take j rest)) = Ok (entity_id e).
Proof.
  induction devices as [| d ds IH]; intros entities ids out E Hids; simpl in E.
  - injection E as <-. exists []. rewrite app_nil_r.
    split; [done |]. split; [done |]. intros j e Hj. by destruct j.
  - apply bind_Ok in E as (e0 & He0 & E).
    apply init_Ok in He0 as (n & Hn & Hd & Hname & Hgen).
    apply IH in E as (rest & -> & Hlen & Hrest);
      [| by rewrite fmap_app, Hids].
    exists (e0 :: rest). split; [by rewrite <- app_assoc |].
    split; [simpl; by rewrite Hlen |].
    intros [| j] e Hj; simpl in Hj.
    + injection Hj as <-. exists n. rewrite Hd. simpl.
      rewrite app_nil_r. done.
    + destruct (Hrest j e Hj) as (n' & Hdev & Hn' & Hname' & Hgen').
      exists n'. simpl. rewrite <- app_assoc in Hgen'. done.
Qed.

Lemma async_setup_sequential devices entities :
  async_setup devices = Ok entities →
  length entities = length devices ∧
  ∀ i e, entities !! i = Some e →
    ∃ n, devices !! i = Some (device e) ∧
         attrs (device e) !! "name" = Some n ∧ name e = n ∧
         generate_entity_id ENTITY_ID_FORMAT n (entity_id <$> take i entities)
           = Ok (entity_id e).
Proof.
  intros E.
  apply setup_loop_sequential in E as (rest & -> & Hlen & Hrest); [| done].
  done.
Qed.

(** X13: the adapters come out in the order of the devices, and the
    identifier of each is generated from the name of its device against the
    identifiers of the adapters made before it, and of no other. *)
Theorem setup_identifiers_sequential :
  ∀ (devices : list device_handle) (entities : list DreamScreenEntity),
    async_setup devices = Ok entities →
    length entities = length devices ∧
    ∀ i e, entities !! i = Some e →
      ∃ n, devices !! i = Some (device e) ∧
           attrs (device e) !! "name" = Some n ∧ name e = n ∧
           generate_entity_id ENTITY_ID_FORMAT n (entity_id <$> take i entities)
             = Ok (entity_id e).
Proof.
  intros devices entities E. split.
  - exact (proj1 (async_setup_sequential _ _ E)).
  - intros i e He. exact (proj2 (async_setup_sequential _ _ E) i e He).
Qed.

(** X14: the identifier of an adapter whose device has a non-empty name is
    ["dreamscreen."] and the slug of the name, followed by [_k] for the
    least [k] from 2 on that makes it differ from the identifiers made
    before it, and by nothing when the plain form is free. *)
Theorem setup_identifier_shape :
  ∀ (devices : list device_handle) (entities : list DreamScreenEntity)
    (i : nat) (e : DreamScreenEntity) (s : string),
    async_setup devices = Ok entities →
    entities !! i = Some e →
    attrs (device e) !! "name" = Some (VStr s) → s ≠ "" →
    let preferred := "dreamscreen." +:+ slugify s in
    let earlier := entity_id <$> take i entities in
    ∃ k : nat,
      (1 ≤ k)%nat ∧ entity_id e = candidate preferred k ∧
      (entity_id e ∉ earlier) ∧
      (∀ j : nat, (1 ≤ j < k)%nat → candidate preferred j ∈ earlier) ∧
      (preferred ∉ earlier → entity_id e = preferred).
Proof.
  intros devices entities i e s E He Hs Hne preferred earlier.
  apply async_setup_sequential in E as [_ E].
  destruct (E i e He) as (n & _ & Hn & _ & Hgen).
  rewrite Hs in Hn. injection Hn as <-.
  unfold generate_entity_id in Hgen.
  replace (truthy (VStr s)) with true in Hgen.
  2: { simpl. by destruct (String.eqb_spec s ""). }
  cbn [mbind result_bind] in Hgen. fold earlier in Hgen.
  change (ENTITY_ID_FORMAT (slugify s)) with preferred in Hgen.
  destruct (ensure_unique_string preferred earlier) as [r |] eqn:Hr;
    [| discriminate Hgen].
  injection Hgen as <-. unfold ensure_unique_string in Hr.
  change preferred with (candidate preferred 1) in Hr at 2.
  apply ensure_unique_loop_least in Hr as (k & Hk & -> & Hfree & Hleast);
    [| lia].
  exists k. repeat split; [done | done | done |].
  intros Hp. destruct (decide (k = 1)) as [-> | Hk1]; [done |].
  exfalso. apply Hp. apply (Hleast 1). lia.
Qed.

(** X15: a device without a [name] attribute makes the setup fail: no list
    of adapters comes out of it. *)
Theorem setup_fails_without_name :
  ∀ (devices : list device_handle) (d : device_handle),
    d ∈ devices → attrs d !! "name" = None →
    ∃ e, async_setup devices = Raise e.
Proof.
  intros devices d Hd Hn.
  destruct (async_setup devices) as [entities | e] eqn:E; [| eauto].
  exfalso.
  apply list_elem_of_lookup in Hd as [i Hi].
  destruct (async_setup_sequential _ _ E) as [Hlen Hseq].
  destruct (lookup_lt_is_Some_2 entities i) as [x Hx].
  { rewrite Hlen. by eapply lookup_lt_Some. }
  destruct (Hseq i x Hx) as (n & Hdev & Hname & _).
  rewrite Hi in Hdev. injection Hdev as ->. congruence.
Qed.

End SetupLoopProperties.

Lemma setup_identifiers_sequential_witness :
  ∃ entities,
    @async_setup sample_platform sample_devices = Ok entities ∧
    length entities = 3.
Proof.
  destruct (is_Ok_true (@async_setup sample_platform sample_devices))
    as [entities E]; [vm_compute; reflexivity |].
  exists entities. split; [exact E |].
  exact (proj1 (@setup_identifiers_sequential sample_platform _ _ E)).
Defined.

Lemma setup_identifier_shape_witness :
  ∃ entities e,
    @async_setup sample_platform sample_devices = Ok entities ∧
    entities !! 0 = Some e ∧ entity_id e = "dreamscreen.Den".
Proof.
  destruct (is_Ok_true (@async_setup sample_platform sample_devices))
    as [entities E]; [vm_compute; reflexivity |].
  destruct (@async_setup_sequential sample_platform _ _ E) as [Hlen Hseq].
  destruct (lookup_lt_is_Some_2 entities 0) as [e He]; [rewrite Hlen; simpl; lia |].
  destruct (Hseq 0 e He) as (n & Hdev & Hn & _).
  injection Hdev as Hdev.
  assert (Hs : attrs (device e) !! "name" = Some (VStr "Den"))
    by (rewrite <- Hdev; reflexivity).
  destruct (@setup_identifier_shape sample_platform _ _ 0 e "Den" E He Hs
              ltac:(discriminate))
    as (k & _ & _ & _ & _ & Hfree).
  exists entities, e. split; [exact E |]. split; [exact He |].
  apply Hfree. cbn [take fmap list_fmap]. by intros ?%elem_of_nil.
Defined.

Lemma setup_fails_without_name_witness :
  ∃ e,
    @async_setup sample_platform
      [sample_sidekick "Den"; Device DreamScreenHD ∅] = Raise e.
Proof.
  apply (@setup_fails_without_name sample_platform _ (Device DreamScreenHD ∅)).
  - apply list_elem_of_further, list_elem_of_here.
  - apply lookup_empty.
Defined.

(** *** State and snapshot together *)

(** X16: the state and the snapshot agree: the state is ["on"] exactly
    when the [device_mode] of the snapshot is a true value. *)
Theorem state_agrees_with_snapshot :
  ∀ (self : DreamScreenEntity) (a : gmap string value),
    state_attributes self = Ok a →
    ∃ m, a !! "device_mode" = Some m ∧
         state self = Ok (if truthy m then "on" else "off").
Proof.
  intros self a E.
  apply state_attributes_Ok_inv in E
    as (gname & gnum & mode & bri & b & scene & _ & _ & H3 & _ & _ & _ & E).
  cbv zeta in E. exists mode. split.
  - destruct (is_hdmi_device (device self)).
    + destruct E as (h & n1 & n2 & n3 & ch & _ & _ & _ & _ & _ & ->).
      do 9 (rewrite lookup_insert_ne by done). apply lookup_insert_eq.
    + subst a. do 3 (rewrite lookup_insert_ne by done). apply lookup_insert_eq.
  - unfold state, getattr. by rewrite H3.
Qed.

Lemma state_agrees_with_snapshot_witness :
  ∃ a m,
    state_attributes (Entity (sample_hd "Den" 1) "dreamscreen.den" (VStr "Den"))
      = Ok a ∧
    a !! "device_mode" = Some m ∧
    state (Entity (sample_hd "Den" 1) "dreamscreen.den" (VStr "Den"))
      = Ok (if truthy m then "on" else "off").
Proof.
  set (self := Entity _ _ _).
  destruct (is_Ok_true (state_attributes self)) as [a E];
    [vm_compute; reflexivity |].
  destruct (state_agrees_with_snapshot self a E) as (m & Hm & Hs).
  exists a, m. split; [exact E |]. split; [exact Hm | exact Hs].
Defined.
